(** * simple2d, OpenGL 3.3 back end ([src/gl3.c])

    A shallow embedding of [gl3.c] and the properties of its specification.

    The translation unit is glue code over the OpenGL driver.  Each C function
    becomes a computation in a small state monad [GL]; the state holds the
    module's globals ([shaderProgram], [texShaderProgram] and the shared
    [S2D_GL_orthoMatrix]), the part of the OpenGL context the module touches,
    and the chronological list of the driver and logging calls issued.  What
    the driver answers (object names, link status, uniform and attribute
    locations, shader compilation) is not determined by [gl3.c]: it is taken
    from a [Driver] oracle over which all theorems quantify.

    [GLfloat] is IEEE-754 binary32, modelled exactly with the Standard
    Library's [spec_float] at precision 24 and maximal exponent 128. *)

From Stdlib Require Import ZArith Lia.
From Stdlib Require Import Floats.SpecFloat.
From stdpp Require Import base strings list vector gmap.

Local Open Scope Z_scope.

(** ** Machine integers *)

Module Int32.

(** [GLuint] and [GLint] are 32 bits wide; values are kept as [Z] and the
    wrap-around of a conversion is written out. *)
Definition modulus : Z := 2 ^ 32.
Definition half_modulus : Z := 2 ^ 31.

(** Conversion to [GLuint] (unsigned, modulo 2^32). *)
Definition to_GLuint (z : Z) : Z := z mod modulus.

(** Conversion to [GLint] / [int] (two's complement). *)
Definition to_GLint (z : Z) : Z := (z + half_modulus) mod modulus - half_modulus.

(** [a + b] on C [int]s.  Signed overflow is undefined in C; the model wraps,
    as the two's complement targets of the library do. *)
Definition int_add (a b : Z) : Z := to_GLint (a + b).

Definition in_GLuint (z : Z) : Prop := 0 <= z < modulus.
Definition in_GLint (z : Z) : Prop := - half_modulus <= z < half_modulus.

End Int32.

(** ** Single-precision floats *)

Module Float32.

Definition prec : Z := 24.
Definition emax : Z := 128.

(** [(GLfloat) n] for an integer [n]: round to nearest, ties to even. *)
Definition of_int (n : Z) : spec_float := binary_normalize prec emax n 0 false.

(** [x / y] on [GLfloat]. *)
Definition div (x y : spec_float) : spec_float := SFdiv prec emax x y.

(** Unary minus. *)
Definition neg (x : spec_float) : spec_float := SFopp x.

(** The literals of [gl3.c]: [0.f] (and the [int] literal [0] in a [GLfloat]
    initialiser), [1.f] and [2.0f]. *)
Definition zero : spec_float := of_int 0.
Definition one : spec_float := of_int 1.
Definition two : spec_float := of_int 2.

End Float32.

Abbreviation GLfloat := spec_float.
Abbreviation GLuint := Z.
Abbreviation GLint := Z.
Abbreviation GLsizei := Z.

(** [sizeof(GLfloat)] and [sizeof(GLuint)]. *)
Definition sizeof_GLfloat : Z := 4.
Definition sizeof_GLuint : Z := 4.

(** The OpenGL enumerants that [gl3.c] names. *)
Inductive GLenum : Type :=
| GL_BLEND
| GL_SRC_ALPHA
| GL_ONE_MINUS_SRC_ALPHA
| GL_ARRAY_BUFFER
| GL_ELEMENT_ARRAY_BUFFER
| GL_VERTEX_SHADER
| GL_FRAGMENT_SHADER
| GL_LINK_STATUS
| GL_FLOAT
| GL_UNSIGNED_INT
| GL_STATIC_DRAW
| GL_TRIANGLES
| GL_TEXTURE_2D.

(** [GL_FALSE] and [GL_TRUE], as the [int] results of [gl3_check_linked] and
    [gl3_init] and as the [GLboolean] arguments of driver calls. *)
Definition GL_FALSE : Z := 0.
Definition GL_TRUE : Z := 1.

(** Modelled from the spec: the severity levels of the shared logging facility
    [S2D_Log], declared in [include/simple2d.h]; [gl3.c] uses [S2D_ERROR]. *)
Inductive S2D_level : Type :=
| S2D_INFO
| S2D_WARN
| S2D_ERROR.

(** The payload of a [glBufferData] upload: the C array the pointer argument
    designates. *)
Inductive buffer_data : Type :=
| FloatData (values : list GLfloat)
| UIntData (values : list GLuint).

(** ** Calls issued by the module

    One constructor per external function called from [gl3.c]; a call that
    hands a value back carries that value as its last argument. *)
Inductive gl_call : Type :=
| Call_glGetProgramiv (program : GLuint) (pname : GLenum) (params : GLint)
| Call_S2D_Log (msg : string) (level : S2D_level)
| Call_S2D_GL_PrintError (msg : string)
| Call_glViewport (x y : GLint) (width height : GLsizei)
| Call_glUseProgram (program : GLuint)
| Call_glGetUniformLocation (program : GLuint) (name : string) (location : GLint)
| Call_glUniformMatrix4fv (location : GLint) (count : GLsizei) (transpose : Z)
    (value : vec GLfloat 16)
| Call_glEnable (cap : GLenum)
| Call_glBlendFunc (sfactor dfactor : GLenum)
| Call_glGenVertexArrays (n : GLsizei) (array : GLuint)
| Call_glBindVertexArray (array : GLuint)
| Call_glGenBuffers (n : GLsizei) (buffer : GLuint)
| Call_glBindBuffer (target : GLenum) (buffer : GLuint)
| Call_S2D_GL_LoadShader (type : GLenum) (source name : string) (shader : GLuint)
| Call_glCreateProgram (program : GLuint)
| Call_glAttachShader (program shader : GLuint)
| Call_glBindFragDataLocation (program colorNumber : GLuint) (name : string)
| Call_glLinkProgram (program : GLuint)
| Call_glGetAttribLocation (program : GLuint) (name : string) (location : GLint)
| Call_glVertexAttribPointer (index : GLuint) (size : GLint) (type : GLenum)
    (normalized : Z) (stride : GLsizei) (pointer : Z)
| Call_glEnableVertexAttribArray (index : GLuint)
| Call_glDeleteShader (shader : GLuint)
| Call_glBufferData (target : GLenum) (size : Z) (data : buffer_data) (usage : GLenum)
| Call_glDrawArrays (mode : GLenum) (first : GLint) (count : GLsizei)
| Call_glBindTexture (target : GLenum) (texture : GLuint)
| Call_glDrawElements (mode : GLenum) (count : GLsizei) (type : GLenum) (indices : Z).

(** ** State *)

(** The globals of the translation unit: the two program handles of lines 5-6
    and the projection matrix [S2D_GL_orthoMatrix], a [GLfloat[16]] shared
    with the rest of the library. *)
Record module_globals : Type := Globals {
  shaderProgram : GLuint;
  texShaderProgram : GLuint;
  S2D_GL_orthoMatrix : vec GLfloat 16
}.

(** The part of the OpenGL context that the calls of [gl3.c] set.
    [uniform_uploads] keeps, by active program and location, the last matrix
    handed to [glUniformMatrix4fv]; [buffer_store] keeps, by buffer name, the
    last data and usage handed to [glBufferData].  The three counters number
    the requests for an object name made so far. *)
Record gl_context : Type := Context {
  viewport : Z * Z * Z * Z;
  blend_enabled : bool;
  blend_func : option (GLenum * GLenum);
  vertex_array_binding : GLuint;
  array_buffer_binding : GLuint;
  element_array_buffer_binding : GLuint;
  current_program : GLuint;
  texture_binding_2d : GLuint;
  uniform_uploads : gmap (Z * Z) (vec GLfloat 16);
  buffer_store : gmap Z (buffer_data * GLenum);
  n_vertex_arrays : nat;
  n_buffers : nat;
  n_programs : nat
}.

Record gl_state : Type := State {
  globals : module_globals;
  context : gl_context;
  calls : list gl_call
}.

(** *** Field updates *)

Definition set_viewport (v : Z * Z * Z * Z) (c : gl_context) : gl_context :=
  Context v (blend_enabled c) (blend_func c) (vertex_array_binding c)
    (array_buffer_binding c) (element_array_buffer_binding c) (current_program c)
    (texture_binding_2d c) (uniform_uploads c) (buffer_store c)
    (n_vertex_arrays c) (n_buffers c) (n_programs c).

Definition set_blend_enabled (b : bool) (c : gl_context) : gl_context :=
  Context (viewport c) b (blend_func c) (vertex_array_binding c)
    (array_buffer_binding c) (element_array_buffer_binding c) (current_program c)
    (texture_binding_2d c) (uniform_uploads c) (buffer_store c)
    (n_vertex_arrays c) (n_buffers c) (n_programs c).

Definition set_blend_func (f : GLenum * GLenum) (c : gl_context) : gl_context :=
  Context (viewport c) (blend_enabled c) (Some f) (vertex_array_binding c)
    (array_buffer_binding c) (element_array_buffer_binding c) (current_program c)
    (texture_binding_2d c) (uniform_uploads c) (buffer_store c)
    (n_vertex_arrays c) (n_buffers c) (n_programs c).

Definition set_vertex_array_binding (a : GLuint) (c : gl_context) : gl_context :=
  Context (viewport c) (blend_enabled c) (blend_func c) a
    (array_buffer_binding c) (element_array_buffer_binding c) (current_program c)
    (texture_binding_2d c) (uniform_uploads c) (buffer_store c)
    (n_vertex_arrays c) (n_buffers c) (n_programs c).

Definition set_array_buffer_binding (b : GLuint) (c : gl_context) : gl_context :=
  Context (viewport c) (blend_enabled c) (blend_func c) (vertex_array_binding c)
    b (element_array_buffer_binding c) (current_program c)
    (texture_binding_2d c) (uniform_uploads c) (buffer_store c)
    (n_vertex_arrays c) (n_buffers c) (n_programs c).

Definition set_element_array_buffer_binding (b : GLuint) (c : gl_context) : gl_context :=
  Context (viewport c) (blend_enabled c) (blend_func c) (vertex_array_binding c)
    (array_buffer_binding c) b (current_program c)
    (texture_binding_2d c) (uniform_uploads c) (buffer_store c)
    (n_vertex_arrays c) (n_buffers c) (n_programs c).

Definition set_current_program (p : GLuint) (c : gl_context) : gl_context :=
  Context (viewport c) (blend_enabled c) (blend_func c) (vertex_array_binding c)
    (array_buffer_binding c) (element_array_buffer_binding c) p
    (texture_binding_2d c) (uniform_uploads c) (buffer_store c)
    (n_vertex_arrays c) (n_buffers c) (n_programs c).

Definition set_texture_binding_2d (t : GLuint) (c : gl_context) : gl_context :=
  Context (viewport c) (blend_enabled c) (blend_func c) (vertex_array_binding c)
    (array_buffer_binding c) (element_array_buffer_binding c) (current_program c)
    t (uniform_uploads c) (buffer_store c)
    (n_vertex_arrays c) (n_buffers c) (n_programs c).

Definition set_uniform_uploads (u : gmap (Z * Z) (vec GLfloat 16)) (c : gl_context)
  : gl_context :=
  Context (viewport c) (blend_enabled c) (blend_func c) (vertex_array_binding c)
    (array_buffer_binding c) (element_array_buffer_binding c) (current_program c)
    (texture_binding_2d c) u (buffer_store c)
    (n_vertex_arrays c) (n_buffers c) (n_programs c).

Definition set_buffer_store (b : gmap Z (buffer_data * GLenum)) (c : gl_context)
  : gl_context :=
  Context (viewport c) (blend_enabled c) (blend_func c) (vertex_array_binding c)
    (array_buffer_binding c) (element_array_buffer_binding c) (current_program c)
    (texture_binding_2d c) (uniform_uploads c) b
    (n_vertex_arrays c) (n_buffers c) (n_programs c).

Definition bump_vertex_arrays (c : gl_context) : gl_context :=
  Context (viewport c) (blend_enabled c) (blend_func c) (vertex_array_binding c)
    (array_buffer_binding c) (element_array_buffer_binding c) (current_program c)
    (texture_binding_2d c) (uniform_uploads c) (buffer_store c)
    (S (n_vertex_arrays c)) (n_buffers c) (n_programs c).

Definition bump_buffers (c : gl_context) : gl_context :=
  Context (viewport c) (blend_enabled c) (blend_func c) (vertex_array_binding c)
    (array_buffer_binding c) (element_array_buffer_binding c) (current_program c)
    (texture_binding_2d c) (uniform_uploads c) (buffer_store c)
    (n_vertex_arrays c) (S (n_buffers c)) (n_programs c).

Definition bump_programs (c : gl_context) : gl_context :=
  Context (viewport c) (blend_enabled c) (blend_func c) (vertex_array_binding c)
    (array_buffer_binding c) (element_array_buffer_binding c) (current_program c)
    (texture_binding_2d c) (uniform_uploads c) (buffer_store c)
    (n_vertex_arrays c) (n_buffers c) (S (n_programs c)).

(** The buffer bound to a [glBufferData] target, when the target is one of the
    two that [gl3.c] binds. *)
Definition bound_buffer (target : GLenum) (c : gl_context) : option GLuint :=
  match target with
  | GL_ARRAY_BUFFER => Some (array_buffer_binding c)
  | GL_ELEMENT_ARRAY_BUFFER => Some (element_array_buffer_binding c)
  | _ => None
  end.

(** ** Effect of a call on the context

    The OpenGL 3.3 meaning of each state-setting call, restricted to the
    capabilities and targets the module uses; queries and the calls whose
    effect no property reads leave the context as it is. *)
Definition gl_step (e : gl_call) (c : gl_context) : gl_context :=
  match e with
  | Call_glViewport x y w h => set_viewport (x, y, w, h) c
  | Call_glUseProgram p => set_current_program p c
  | Call_glUniformMatrix4fv loc _ _ m =>
      set_uniform_uploads (<[(current_program c, loc) := m]> (uniform_uploads c)) c
  | Call_glEnable GL_BLEND => set_blend_enabled true c
  | Call_glBlendFunc sf df => set_blend_func (sf, df) c
  | Call_glGenVertexArrays _ _ => bump_vertex_arrays c
  | Call_glBindVertexArray a => set_vertex_array_binding a c
  | Call_glGenBuffers _ _ => bump_buffers c
  | Call_glBindBuffer GL_ARRAY_BUFFER b => set_array_buffer_binding b c
  | Call_glBindBuffer GL_ELEMENT_ARRAY_BUFFER b => set_element_array_buffer_binding b c
  | Call_glCreateProgram _ => bump_programs c
  | Call_glBufferData target _ data usage =>
      match bound_buffer target c with
      | Some b => set_buffer_store (<[b := (data, usage)]> (buffer_store c)) c
      | None => c
      end
  | Call_glBindTexture GL_TEXTURE_2D t => set_texture_binding_2d t c
  | _ => c
  end.

(** ** The driver

    What the environment answers.  Object names are indexed by the number of
    objects of the kind handed out before; [drv_compile_shader] is [None]
    when the GLSL compiler rejects the source. *)
Record Driver : Type := {
  drv_gen_vertex_array : nat -> Z;
  drv_gen_buffer : nat -> Z;
  drv_compile_shader : GLenum -> string -> option Z;
  drv_create_program : nat -> Z;
  drv_link_status : Z -> Z;
  drv_uniform_location : Z -> string -> Z;
  drv_attrib_location : Z -> string -> Z
}.

(** ** The monad *)

Definition GL (A : Type) : Type := gl_state -> A * gl_state.

Definition ret {A : Type} (a : A) : GL A := fun s => (a, s).

Definition bind {A B : Type} (m : GL A) (k : A -> GL B) : GL B :=
  fun s => let (a, s') := m s in k a s'.

Declare Scope gl_scope.
Delimit Scope gl_scope with gl.
Bind Scope gl_scope with GL.

Notation "x <- m ;; k" := (bind m (fun x => k))
  (at level 100, m at next level, right associativity) : gl_scope.
Notation "m ;; k" := (bind m (fun _ => k))
  (at level 100, right associativity) : gl_scope.

(** Issue a call: record it and apply its effect on the context. *)
Definition emit (e : gl_call) : GL unit :=
  fun s => (tt, State (globals s) (gl_step e (context s)) (calls s ++ [e])).

(** Read and write the module's globals. *)
Definition get_globals : GL module_globals := fun s => (globals s, s).
Definition get_context : GL gl_context := fun s => (context s, s).

Definition put_globals (g : module_globals) : GL unit :=
  fun s => (tt, State g (context s) (calls s)).

Definition set_shaderProgram (p : GLuint) : GL unit :=
  (g <- get_globals ;;
   put_globals (Globals p (texShaderProgram g) (S2D_GL_orthoMatrix g)))%gl.

Definition set_texShaderProgram (p : GLuint) : GL unit :=
  (g <- get_globals ;;
   put_globals (Globals (shaderProgram g) p (S2D_GL_orthoMatrix g)))%gl.

(** [S2D_GL_orthoMatrix[i] = v]. *)
Definition store_orthoMatrix (i : fin 16) (v : GLfloat) : GL unit :=
  (g <- get_globals ;;
   put_globals (Globals (shaderProgram g) (texShaderProgram g)
                  (vinsert i v (S2D_GL_orthoMatrix g))))%gl.

(** Result and final state of a computation. *)
Definition result {A : Type} (m : GL A) (s : gl_state) : A := fst (m s).
Definition exec {A : Type} (m : GL A) (s : gl_state) : gl_state := snd (m s).

(** The calls a computation adds to the record. *)
Definition issued {A : Type} (m : GL A) (s : gl_state) : list gl_call :=
  drop (length (calls s)) (calls (exec m s)).

(** ** The external functions, as computations *)

Section Externals.

Variable drv : Driver.

Definition glGetProgramiv (program : GLuint) (pname : GLenum) : GL GLint :=
  let v := Int32.to_GLint (drv_link_status drv program) in
  (emit (Call_glGetProgramiv program pname v) ;; ret v)%gl.

Definition S2D_Log (msg : string) (level : S2D_level) : GL unit :=
  emit (Call_S2D_Log msg level).

Definition S2D_GL_PrintError (msg : string) : GL unit :=
  emit (Call_S2D_GL_PrintError msg).

Definition glViewport (x y : GLint) (width height : GLsizei) : GL unit :=
  emit (Call_glViewport x y width height).

Definition glUseProgram (program : GLuint) : GL unit :=
  emit (Call_glUseProgram program).

Definition glGetUniformLocation (program : GLuint) (name : string) : GL GLint :=
  let loc := Int32.to_GLint (drv_uniform_location drv program name) in
  (emit (Call_glGetUniformLocation program name loc) ;; ret loc)%gl.

Definition glUniformMatrix4fv (location : GLint) (count : GLsizei) (transpose : Z)
  (value : vec GLfloat 16) : GL unit :=
  emit (Call_glUniformMatrix4fv location count transpose value).

Definition glEnable (cap : GLenum) : GL unit :=
  emit (Call_glEnable cap).

Definition glBlendFunc (sfactor dfactor : GLenum) : GL unit :=
  emit (Call_glBlendFunc sfactor dfactor).

Definition glGenVertexArrays (n : GLsizei) : GL GLuint :=
  (c <- get_context ;;
   let a := Int32.to_GLuint (drv_gen_vertex_array drv (n_vertex_arrays c)) in
   emit (Call_glGenVertexArrays n a) ;; ret a)%gl.

Definition glBindVertexArray (array : GLuint) : GL unit :=
  emit (Call_glBindVertexArray array).

Definition glGenBuffers (n : GLsizei) : GL GLuint :=
  (c <- get_context ;;
   let b := Int32.to_GLuint (drv_gen_buffer drv (n_buffers c)) in
   emit (Call_glGenBuffers n b) ;; ret b)%gl.

Definition glBindBuffer (target : GLenum) (buffer : GLuint) : GL unit :=
  emit (Call_glBindBuffer target buffer).

(** Modelled from the spec: [S2D_GL_LoadShader], the Shader Loader, is defined
    outside [gl3.c].  It compiles a GLSL source string into a shader object and
    reports compile errors; a rejected source yields the null handle. *)
Definition S2D_GL_LoadShader (type : GLenum) (source name : string) : GL GLuint :=
  let shader :=
    match drv_compile_shader drv type source with
    | Some sh => Int32.to_GLuint sh
    | None => 0
    end in
  (emit (Call_S2D_GL_LoadShader type source name shader) ;; ret shader)%gl.

Definition glCreateProgram : GL GLuint :=
  (c <- get_context ;;
   let p := Int32.to_GLuint (drv_create_program drv (n_programs c)) in
   emit (Call_glCreateProgram p) ;; ret p)%gl.

Definition glAttachShader (program shader : GLuint) : GL unit :=
  emit (Call_glAttachShader program shader).

Definition glBindFragDataLocation (program colorNumber : GLuint) (name : string)
  : GL unit :=
  emit (Call_glBindFragDataLocation program colorNumber name).

Definition glLinkProgram (program : GLuint) : GL unit :=
  emit (Call_glLinkProgram program).

Definition glGetAttribLocation (program : GLuint) (name : string) : GL GLint :=
  let loc := Int32.to_GLint (drv_attrib_location drv program name) in
  (emit (Call_glGetAttribLocation program name loc) ;; ret loc)%gl.

Definition glVertexAttribPointer (index : GLuint) (size : GLint) (type : GLenum)
  (normalized : Z) (stride : GLsizei) (pointer : Z) : GL unit :=
  emit (Call_glVertexAttribPointer index size type normalized stride pointer).

Definition glEnableVertexAttribArray (index : GLuint) : GL unit :=
  emit (Call_glEnableVertexAttribArray index).

Definition glDeleteShader (shader : GLuint) : GL unit :=
  emit (Call_glDeleteShader shader).

Definition glBufferData (target : GLenum) (size : Z) (data : buffer_data)
  (usage : GLenum) : GL unit :=
  emit (Call_glBufferData target size data usage).

Definition glDrawArrays (mode : GLenum) (first : GLint) (count : GLsizei) : GL unit :=
  emit (Call_glDrawArrays mode first count).

Definition glBindTexture (target : GLenum) (texture : GLuint) : GL unit :=
  emit (Call_glBindTexture target texture).

Definition glDrawElements (mode : GLenum) (count : GLsizei) (type : GLenum)
  (indices : Z) : GL unit :=
  emit (Call_glDrawElements mode count type indices).

End Externals.

(** ** [gl3.c] *)

(** Lines 7-10. *)
Definition elements : list GLuint := [0; 1; 2; 2; 3; 0].

(** [sizeof] of a [GLfloat] and of a [GLuint] array. *)
Definition sizeof_floats (l : list GLfloat) : Z := Z.of_nat (length l) * sizeof_GLfloat.
Definition sizeof_uints (l : list GLuint) : Z := Z.of_nat (length l) * sizeof_GLuint.

(** Lines 66-98: the three GLSL sources. *)
Definition vertexSource : string :=
  "#version 150 core
" ++
  "uniform mat4 u_mvpMatrix;" ++
  "in vec2 position;" ++
  "in vec4 color;" ++
  "in vec2 texcoord;" ++
  "out vec4 Color;" ++
  "out vec2 Texcoord;" ++
  "void main() {" ++
  "  Color = color;" ++
  "  Texcoord = texcoord;" ++
  "  gl_Position = u_mvpMatrix * vec4(position, 0.0, 1.0);" ++
  "}".

Definition fragmentSource : string :=
  "#version 150 core
" ++
  "in vec4 Color;" ++
  "out vec4 outColor;" ++
  "void main() {" ++
  "  outColor = Color;" ++
  "}".

Definition texFragmentSource : string :=
  "#version 150 core
" ++
  "in vec4 Color;" ++
  "in vec2 Texcoord;" ++
  "out vec4 outColor;" ++
  "uniform sampler2D tex;" ++
  "void main() {" ++
  "  outColor = texture(tex, Texcoord) * Color;" ++
  "}".

(** Modelled from the spec: the drawable types [Image] and [Text] are declared
    in [include/simple2d.h]; [gl3.c] reads their position, size, texture handle
    and, for a [Text], its colour. *)
Record Color : Type := {
  color_r : GLfloat;
  color_g : GLfloat;
  color_b : GLfloat;
  color_a : GLfloat
}.

Record Image : Type := {
  img_x : Z;
  img_y : Z;
  img_w : Z;
  img_h : Z;
  img_texture_id : GLuint
}.

Record Text : Type := {
  txt_x : Z;
  txt_y : Z;
  txt_w : Z;
  txt_h : Z;
  txt_color : Color;
  txt_texture_id : GLuint
}.

Section Gl3.

Variable drv : Driver.

(** Lines 16-27. *)
Definition gl3_check_linked (program : GLuint) : GL Z :=
  (linked <- glGetProgramiv drv program GL_LINK_STATUS ;;
   if linked =? 0 then
     S2D_Log "GL3 shader was not linked" S2D_ERROR ;;
     ret GL_FALSE
   else
     ret GL_TRUE)%gl.

(** Lines 33-53. *)
Definition gl3_set_view (window_width window_height
                         s2d_viewport_width s2d_viewport_height : Z) : GL unit :=
  (glViewport 0 0 window_width window_height ;;
   store_orthoMatrix 0%fin
     (Float32.div Float32.two (Float32.of_int s2d_viewport_width)) ;;
   store_orthoMatrix 5%fin
     (Float32.div (Float32.neg Float32.two) (Float32.of_int s2d_viewport_height)) ;;
   g <- get_globals ;;
   glUseProgram (shaderProgram g) ;;
   loc <- glGetUniformLocation drv (shaderProgram g) "u_mvpMatrix" ;;
   let mMvpLocation := Int32.to_GLuint loc in
   g <- get_globals ;;
   glUniformMatrix4fv (Int32.to_GLint mMvpLocation) 1 GL_FALSE (S2D_GL_orthoMatrix g) ;;
   g <- get_globals ;;
   glUseProgram (texShaderProgram g) ;;
   loc <- glGetUniformLocation drv (texShaderProgram g) "u_mvpMatrix" ;;
   let texmMvpLocation := Int32.to_GLuint loc in
   g <- get_globals ;;
   glUniformMatrix4fv (Int32.to_GLint texmMvpLocation) 1 GL_FALSE
     (S2D_GL_orthoMatrix g))%gl.

(** Lines 59-192. *)
Definition gl3_init (width height : Z) : GL Z :=
  (glEnable GL_BLEND ;;
   glBlendFunc GL_SRC_ALPHA GL_ONE_MINUS_SRC_ALPHA ;;
   vao <- glGenVertexArrays drv 1 ;;
   glBindVertexArray vao ;;
   vbo <- glGenBuffers drv 1 ;;
   glBindBuffer GL_ARRAY_BUFFER vbo ;;
   ebo <- glGenBuffers drv 1 ;;
   glBindBuffer GL_ELEMENT_ARRAY_BUFFER ebo ;;
   vertexShader <- S2D_GL_LoadShader drv GL_VERTEX_SHADER vertexSource "GL3 Vertex" ;;
   fragmentShader <-
     S2D_GL_LoadShader drv GL_FRAGMENT_SHADER fragmentSource "GL3 Fragment" ;;
   texFragmentShader <-
     S2D_GL_LoadShader drv GL_FRAGMENT_SHADER texFragmentSource
       "GL3 Texture Fragment" ;;
   p <- glCreateProgram drv ;;
   set_shaderProgram p ;;
   g <- get_globals ;;
   if shaderProgram g =? 0 then
     S2D_GL_PrintError "Failed to create shader program" ;;
     ret GL_FALSE
   else
     g <- get_globals ;;
     glAttachShader (shaderProgram g) vertexShader ;;
     glAttachShader (shaderProgram g) fragmentShader ;;
     glBindFragDataLocation (shaderProgram g) 0 "outColor" ;;
     glLinkProgram (shaderProgram g) ;;
     _ <- gl3_check_linked (shaderProgram g) ;;
     posAttrib <- glGetAttribLocation drv (shaderProgram g) "position" ;;
     glVertexAttribPointer (Int32.to_GLuint posAttrib) 2 GL_FLOAT GL_FALSE
       (8 * sizeof_GLfloat) 0 ;;
     glEnableVertexAttribArray (Int32.to_GLuint posAttrib) ;;
     colAttrib <- glGetAttribLocation drv (shaderProgram g) "color" ;;
     glVertexAttribPointer (Int32.to_GLuint colAttrib) 4 GL_FLOAT GL_FALSE
       (8 * sizeof_GLfloat) (2 * sizeof_GLfloat) ;;
     glEnableVertexAttribArray (Int32.to_GLuint colAttrib) ;;
     p <- glCreateProgram drv ;;
     set_texShaderProgram p ;;
     g <- get_globals ;;
     if texShaderProgram g =? 0 then
       S2D_GL_PrintError "Failed to create shader program" ;;
       ret GL_FALSE
     else
       glAttachShader (texShaderProgram g) vertexShader ;;
       glAttachShader (texShaderProgram g) texFragmentShader ;;
       glBindFragDataLocation (texShaderProgram g) 0 "outColor" ;;
       glLinkProgram (texShaderProgram g) ;;
       _ <- gl3_check_linked (texShaderProgram g) ;;
       posAttrib <- glGetAttribLocation drv (texShaderProgram g) "position" ;;
       glVertexAttribPointer (Int32.to_GLuint posAttrib) 2 GL_FLOAT GL_FALSE
         (8 * sizeof_GLfloat) 0 ;;
       glEnableVertexAttribArray (Int32.to_GLuint posAttrib) ;;
       colAttrib <- glGetAttribLocation drv (texShaderProgram g) "color" ;;
       glVertexAttribPointer (Int32.to_GLuint colAttrib) 4 GL_FLOAT GL_FALSE
         (8 * sizeof_GLfloat) (2 * sizeof_GLfloat) ;;
       glEnableVertexAttribArray (Int32.to_GLuint colAttrib) ;;
       texAttrib <- glGetAttribLocation drv (texShaderProgram g) "texcoord" ;;
       glVertexAttribPointer (Int32.to_GLuint texAttrib) 2 GL_FLOAT GL_FALSE
         (8 * sizeof_GLfloat) (6 * sizeof_GLfloat) ;;
       glEnableVertexAttribArray (Int32.to_GLuint texAttrib) ;;
       gl3_set_view width height width height ;;
       glDeleteShader vertexShader ;;
       glDeleteShader fragmentShader ;;
       glDeleteShader texFragmentShader ;;
       ret GL_TRUE)%gl.

(** Lines 198-213. *)
Definition triangle_vertices (x1 y1 c1r c1g c1b c1a
                              x2 y2 c2r c2g c2b c2a
                              x3 y3 c3r c3g c3b c3a : GLfloat) : list GLfloat :=
  [ x1; y1; c1r; c1g; c1b; c1a; Float32.of_int 0; Float32.of_int 0;
    x2; y2; c2r; c2g; c2b; c2a; Float32.of_int 0; Float32.of_int 0;
    x3; y3; c3r; c3g; c3b; c3a; Float32.of_int 0; Float32.of_int 0 ].

Definition gl3_draw_triangle (x1 y1 c1r c1g c1b c1a
                              x2 y2 c2r c2g c2b c2a
                              x3 y3 c3r c3g c3b c3a : GLfloat) : GL unit :=
  let vertices :=
    triangle_vertices x1 y1 c1r c1g c1b c1a x2 y2 c2r c2g c2b c2a
                      x3 y3 c3r c3g c3b c3a in
  (g <- get_globals ;;
   glUseProgram (shaderProgram g) ;;
   glBufferData GL_ARRAY_BUFFER (sizeof_floats vertices) (FloatData vertices)
     GL_STATIC_DRAW ;;
   glDrawArrays GL_TRIANGLES 0 3)%gl.

(** Lines 219-236. *)
Definition texture_vertices (x y w h : Z) (r g b a : GLfloat) : list GLfloat :=
  [ Float32.of_int x; Float32.of_int y;
      r; g; b; a; Float32.zero; Float32.zero;
    Float32.of_int (Int32.int_add x w); Float32.of_int y;
      r; g; b; a; Float32.one; Float32.zero;
    Float32.of_int (Int32.int_add x w); Float32.of_int (Int32.int_add y h);
      r; g; b; a; Float32.one; Float32.one;
    Float32.of_int x; Float32.of_int (Int32.int_add y h);
      r; g; b; a; Float32.zero; Float32.one ].

Definition gl3_draw_texture (x y w h : Z) (r g b a : GLfloat) (texture_id : GLuint)
  : GL unit :=
  let vertices := texture_vertices x y w h r g b a in
  (gl <- get_globals ;;
   glUseProgram (texShaderProgram gl) ;;
   glBindTexture GL_TEXTURE_2D texture_id ;;
   glBufferData GL_ARRAY_BUFFER (sizeof_floats vertices) (FloatData vertices)
     GL_STATIC_DRAW ;;
   glBufferData GL_ELEMENT_ARRAY_BUFFER (sizeof_uints elements) (UIntData elements)
     GL_STATIC_DRAW ;;
   glDrawElements GL_TRIANGLES 6 GL_UNSIGNED_INT 0)%gl.

(** Lines 242-248. *)
Definition gl3_draw_image (img : Image) : GL unit :=
  gl3_draw_texture (img_x img) (img_y img) (img_w img) (img_h img)
    Float32.one Float32.one Float32.one Float32.one
    (img_texture_id img).

(** Lines 254-260. *)
Definition gl3_draw_text (txt : Text) : GL unit :=
  gl3_draw_texture (txt_x txt) (txt_y txt) (txt_w txt) (txt_h txt)
    (color_r (txt_color txt)) (color_g (txt_color txt))
    (color_b (txt_color txt)) (color_a (txt_color txt))
    (txt_texture_id txt).

End Gl3.

(** ** Vocabulary of the properties *)

(** The program handles [gl3_init] obtains: the results of the next two
    [glCreateProgram] calls in state [s]. *)
Definition first_program (drv : Driver) (s : gl_state) : GLuint :=
  Int32.to_GLuint (drv_create_program drv (n_programs (context s))).

Definition second_program (drv : Driver) (s : gl_state) : GLuint :=
  Int32.to_GLuint (drv_create_program drv (S (n_programs (context s)))).

(** The object names [gl3_init] obtains for its vertex array and its two
    buffers. *)
Definition init_vao (drv : Driver) (s : gl_state) : GLuint :=
  Int32.to_GLuint (drv_gen_vertex_array drv (n_vertex_arrays (context s))).

Definition init_vbo (drv : Driver) (s : gl_state) : GLuint :=
  Int32.to_GLuint (drv_gen_buffer drv (n_buffers (context s))).

Definition init_ebo (drv : Driver) (s : gl_state) : GLuint :=
  Int32.to_GLuint (drv_gen_buffer drv (S (n_buffers (context s)))).

(** What [glGetProgramiv] reports as the link status of [program], and what
    [glGetUniformLocation] reports for its [u_mvpMatrix]. *)
Definition link_status (drv : Driver) (program : GLuint) : GLint :=
  Int32.to_GLint (drv_link_status drv program).

Definition mvp_location (drv : Driver) (program : GLuint) : GLint :=
  Int32.to_GLint (drv_uniform_location drv program "u_mvpMatrix").

(** The handle [S2D_GL_LoadShader] hands back for a source. *)
Definition loaded_shader (drv : Driver) (type : GLenum) (source : string) : GLuint :=
  match drv_compile_shader drv type source with
  | Some sh => Int32.to_GLuint sh
  | None => 0
  end.

(** The current projection matrix. *)
Definition orthoMatrix (s : gl_state) : vec GLfloat 16 :=
  S2D_GL_orthoMatrix (globals s).

(** Sign of a float that is not a NaN. *)
Definition has_sign (negative : bool) (x : GLfloat) : bool :=
  match x with
  | S754_zero sg | S754_infinity sg | S754_finite sg _ _ => Bool.eqb sg negative
  | S754_nan => false
  end.

(** The interleaved vertex of the data model: the 8-float stride that the
    [glVertexAttribPointer] calls of [gl3_init] declare, [position] at float
    offset 0, [color] at 2 and [texcoord] at 6. *)
Record Vertex : Type := {
  position : GLfloat * GLfloat;
  color : GLfloat * GLfloat * GLfloat * GLfloat;
  texcoord : GLfloat * GLfloat
}.

(** The vertices a buffer of floats holds, read 8 floats at a time; floats
    left over at the end make no vertex. *)
Fixpoint parse_vertices (buf : list GLfloat) : list Vertex :=
  match buf with
  | x :: y :: r :: g :: b :: a :: u :: v :: rest =>
      {| position := (x, y); color := (r, g, b, a); texcoord := (u, v) |}
      :: parse_vertices rest
  | _ => []
  end.

(** The program of the last [glUseProgram] among a list of calls. *)
Definition last_used_program (l : list gl_call) : option GLuint :=
  foldl (fun acc e =>
           match e with
           | Call_glUseProgram p => Some p
           | _ => acc
           end) None l.

(** Whether a call releases an object. *)
Definition is_release (e : gl_call) : bool :=
  match e with
  | Call_glDeleteShader _ => true
  | _ => false
  end.

(** A driver with its GLSL compiler replaced. *)
Definition with_compiler (compile : GLenum -> string -> option Z) (drv : Driver)
  : Driver := {|
  drv_gen_vertex_array := drv_gen_vertex_array drv;
  drv_gen_buffer := drv_gen_buffer drv;
  drv_compile_shader := compile;
  drv_create_program := drv_create_program drv;
  drv_link_status := drv_link_status drv;
  drv_uniform_location := drv_uniform_location drv;
  drv_attrib_location := drv_attrib_location drv
|}.

(** The calls of one [gl3_set_view], given the globals before it and the
    matrix [m'] it uploads. *)
Definition set_view_calls (drv : Driver) (g : module_globals) (ww wh : Z)
  (m' : vec GLfloat 16) : list gl_call :=
  [ Call_glViewport 0 0 ww wh;
    Call_glUseProgram (shaderProgram g);
    Call_glGetUniformLocation (shaderProgram g) "u_mvpMatrix"
      (mvp_location drv (shaderProgram g));
    Call_glUniformMatrix4fv (mvp_location drv (shaderProgram g)) 1 GL_FALSE m';
    Call_glUseProgram (texShaderProgram g);
    Call_glGetUniformLocation (texShaderProgram g) "u_mvpMatrix"
      (mvp_location drv (texShaderProgram g));
    Call_glUniformMatrix4fv (mvp_location drv (texShaderProgram g)) 1 GL_FALSE m' ].

(** The calls of one [gl3_draw_texture]. *)
Definition draw_texture_calls (g : module_globals) (vertices : list GLfloat)
  (texture_id : GLuint) : list gl_call :=
  [ Call_glUseProgram (texShaderProgram g);
    Call_glBindTexture GL_TEXTURE_2D texture_id;
    Call_glBufferData GL_ARRAY_BUFFER 128 (FloatData vertices) GL_STATIC_DRAW;
    Call_glBufferData GL_ELEMENT_ARRAY_BUFFER 24 (UIntData [0; 1; 2; 2; 3; 0])
      GL_STATIC_DRAW;
    Call_glDrawElements GL_TRIANGLES 6 GL_UNSIGNED_INT 0 ].

(** The context after a list of calls. *)
Definition run_calls (l : list gl_call) (c : gl_context) : gl_context :=
  foldl (fun c e => gl_step e c) c l.

(** State [s] once the calls [l] have been issued and the globals have become
    [g]. *)
Definition after (g : module_globals) (l : list gl_call) (s : gl_state) : gl_state :=
  State g (run_calls l (context s)) (calls s ++ l).

(** The calls of one [gl3_check_linked]. *)
Definition check_linked_calls (drv : Driver) (program : GLuint) : list gl_call :=
  Call_glGetProgramiv program GL_LINK_STATUS (link_status drv program) ::
  (if link_status drv program =? 0
   then [Call_S2D_Log "GL3 shader was not linked" S2D_ERROR]
   else []).

(** The calls of [gl3_init], by stage.  [init_setup_calls]: lines 62-121, up
    to the creation of the flat program. *)
Definition init_setup_calls (drv : Driver) (s : gl_state) : list gl_call :=
  [ Call_glEnable GL_BLEND;
    Call_glBlendFunc GL_SRC_ALPHA GL_ONE_MINUS_SRC_ALPHA;
    Call_glGenVertexArrays 1 (init_vao drv s);
    Call_glBindVertexArray (init_vao drv s);
    Call_glGenBuffers 1 (init_vbo drv s);
    Call_glBindBuffer GL_ARRAY_BUFFER (init_vbo drv s);
    Call_glGenBuffers 1 (init_ebo drv s);
    Call_glBindBuffer GL_ELEMENT_ARRAY_BUFFER (init_ebo drv s);
    Call_S2D_GL_LoadShader GL_VERTEX_SHADER vertexSource "GL3 Vertex"
      (loaded_shader drv GL_VERTEX_SHADER vertexSource);
    Call_S2D_GL_LoadShader GL_FRAGMENT_SHADER fragmentSource "GL3 Fragment"
      (loaded_shader drv GL_FRAGMENT_SHADER fragmentSource);
    Call_S2D_GL_LoadShader GL_FRAGMENT_SHADER texFragmentSource
      "GL3 Texture Fragment"
      (loaded_shader drv GL_FRAGMENT_SHADER texFragmentSource);
    Call_glCreateProgram (first_program drv s) ].

(** Lines 131-141 and 161-168: attach, bind the fragment output, link and
    check. *)
Definition link_calls (drv : Driver) (program vertexShader fragShader : GLuint)
  : list gl_call :=
  [ Call_glAttachShader program vertexShader;
    Call_glAttachShader program fragShader;
    Call_glBindFragDataLocation program 0 "outColor";
    Call_glLinkProgram program ] ++
  check_linked_calls drv program.

(** One attribute of the 8-float vertex: lines 144-146 and the like. *)
Definition attrib_calls (drv : Driver) (program : GLuint) (name : string)
  (size offset : Z) : list gl_call :=
  let loc := Int32.to_GLint (drv_attrib_location drv program name) in
  [ Call_glGetAttribLocation program name loc;
    Call_glVertexAttribPointer (Int32.to_GLuint loc) size GL_FLOAT GL_FALSE 32 offset;
    Call_glEnableVertexAttribArray (Int32.to_GLuint loc) ].

(** Lines 131-150: the flat program, once created. *)
Definition flat_program_calls (drv : Driver) (s : gl_state) : list gl_call :=
  let p := first_program drv s in
  link_calls drv p (loaded_shader drv GL_VERTEX_SHADER vertexSource)
    (loaded_shader drv GL_FRAGMENT_SHADER fragmentSource) ++
  attrib_calls drv p "position" 2 0 ++
  attrib_calls drv p "color" 4 8.

(** Lines 161-181: the textured program, once created. *)
Definition textured_program_calls (drv : Driver) (s : gl_state) : list gl_call :=
  let p := second_program drv s in
  link_calls drv p (loaded_shader drv GL_VERTEX_SHADER vertexSource)
    (loaded_shader drv GL_FRAGMENT_SHADER texFragmentSource) ++
  attrib_calls drv p "position" 2 0 ++
  attrib_calls drv p "color" 4 8 ++
  attrib_calls drv p "texcoord" 2 24.

(** Lines 187-189. *)
Definition cleanup_calls (drv : Driver) : list gl_call :=
  [ Call_glDeleteShader (loaded_shader drv GL_VERTEX_SHADER vertexSource);
    Call_glDeleteShader (loaded_shader drv GL_FRAGMENT_SHADER fragmentSource);
    Call_glDeleteShader (loaded_shader drv GL_FRAGMENT_SHADER texFragmentSource) ].

(** The matrix [gl3_set_view] leaves for a viewport of [vw] by [vh]. *)
Definition scaled (vw vh : Z) (m : vec GLfloat 16) : vec GLfloat 16 :=
  vinsert 5%fin (Float32.div (Float32.neg Float32.two) (Float32.of_int vh))
    (vinsert 0%fin (Float32.div Float32.two (Float32.of_int vw)) m).

(** All the calls of [gl3_init width height] from state [s]. *)
Definition init_calls (drv : Driver) (s : gl_state) (width height : Z)
  : list gl_call :=
  let failed := Call_S2D_GL_PrintError "Failed to create shader program" in
  if first_program drv s =? 0 then
    init_setup_calls drv s ++ [failed]
  else if second_program drv s =? 0 then
    init_setup_calls drv s ++ flat_program_calls drv s ++
    [Call_glCreateProgram (second_program drv s); failed]
  else
    init_setup_calls drv s ++ flat_program_calls drv s ++
    [Call_glCreateProgram (second_program drv s)] ++
    textured_program_calls drv s ++
    set_view_calls drv
      (Globals (first_program drv s) (second_program drv s) (orthoMatrix s))
      width height (scaled width height (orthoMatrix s)) ++
    cleanup_calls drv.

(** The globals [gl3_init] leaves. *)
Definition init_globals (drv : Driver) (s : gl_state) (width height : Z)
  : module_globals :=
  if first_program drv s =? 0 then
    Globals (first_program drv s) (texShaderProgram (globals s)) (orthoMatrix s)
  else if second_program drv s =? 0 then
    Globals (first_program drv s) (second_program drv s) (orthoMatrix s)
  else
    Globals (first_program drv s) (second_program drv s)
      (scaled width height (orthoMatrix s)).

(** The result of [gl3_init]. *)
Definition init_result (drv : Driver) (s : gl_state) : Z :=
  if first_program drv s =? 0 then GL_FALSE
  else if second_program drv s =? 0 then GL_FALSE
  else GL_TRUE.

(** ** Sample data *)

(** A context in which nothing has been set or allocated yet. *)
Definition fresh_context : gl_context :=
  Context (0, 0, 0, 0) false None 0 0 0 0 0 ∅ ∅ 0%nat 0%nat 0%nat.

(** A projection matrix whose scale terms are still unset. *)
Definition sample_matrix : vec GLfloat 16 :=
  let z := Float32.zero in
  let o := Float32.one in
  let n := Float32.neg Float32.one in
  [# z; z; z; z;  z; z; z; z;  z; z; z; z;  n; o; n; o ].

Definition fresh_state : gl_state :=
  State (Globals 0 0 sample_matrix) fresh_context [].

(** A driver on which everything succeeds: names count up from 1, shaders get
    the names 11 to 13, programs 21 and up. *)
Definition good_driver : Driver := {|
  drv_gen_vertex_array n := 1 + Z.of_nat n;
  drv_gen_buffer n := 1 + Z.of_nat n;
  drv_compile_shader type source :=
    match type with
    | GL_VERTEX_SHADER => Some 11
    | _ => if String.eqb source fragmentSource then Some 12 else Some 13
    end;
  drv_create_program n := 21 + Z.of_nat n;
  drv_link_status _ := 1;
  drv_uniform_location _ _ := 0;
  drv_attrib_location _ name :=
    if String.eqb name "position" then 0
    else if String.eqb name "color" then 1
    else 2
|}.

(** The same driver with a GLSL compiler that rejects every source. *)
Definition failing_compiler_driver : Driver :=
  with_compiler (fun _ _ => None) good_driver.

(** The same driver with a linker that fails on every program: no link
    status, no active uniform or attribute. *)
Definition failing_linker_driver : Driver := {|
  drv_gen_vertex_array := drv_gen_vertex_array good_driver;
  drv_gen_buffer := drv_gen_buffer good_driver;
  drv_compile_shader := drv_compile_shader good_driver;
  drv_create_program := drv_create_program good_driver;
  drv_link_status _ := 0;
  drv_uniform_location _ _ := -1;
  drv_attrib_location _ _ := -1
|}.

(** The same driver, refusing to create the second program. *)
Definition one_program_driver : Driver := {|
  drv_gen_vertex_array := drv_gen_vertex_array good_driver;
  drv_gen_buffer := drv_gen_buffer good_driver;
  drv_compile_shader := drv_compile_shader good_driver;
  drv_create_program n := match n with O => 21 | _ => 0 end;
  drv_link_status := drv_link_status good_driver;
  drv_uniform_location := drv_uniform_location good_driver;
  drv_attrib_location := drv_attrib_location good_driver
|}.

(** The state after a successful start-up at 640 by 480. *)
Definition started_state : gl_state := exec (gl3_init good_driver 640 480) fresh_state.

(** The same state after one triangle has been drawn: the flat program is the
    active one. *)
Definition drawn_state : gl_state :=
  exec (gl3_draw_triangle
          Float32.zero Float32.zero Float32.one Float32.one Float32.one Float32.one
          Float32.one Float32.zero Float32.one Float32.one Float32.one Float32.one
          Float32.zero Float32.one Float32.one Float32.one Float32.one Float32.one)
    started_state.

(** ** Sequences of operations

    The entry points a client of [gl3.c] calls once the module is started:
    [gl3_set_view] on a resize, [gl3_check_linked], and the three draw
    functions. *)
Inductive gl3_op : Type :=
| Op_set_view (window_width window_height s2d_viewport_width s2d_viewport_height : Z)
| Op_check_linked (program : GLuint)
| Op_draw_triangle (x1 y1 c1r c1g c1b c1a x2 y2 c2r c2g c2b c2a
                    x3 y3 c3r c3g c3b c3a : GLfloat)
| Op_draw_image (img : Image)
| Op_draw_text (txt : Text).

Definition run_op (drv : Driver) (o : gl3_op) : GL unit :=
  match o with
  | Op_set_view ww wh vw vh => gl3_set_view drv ww wh vw vh
  | Op_check_linked program => (_ <- gl3_check_linked drv program ;; ret tt)%gl
  | Op_draw_triangle x1 y1 c1r c1g c1b c1a x2 y2 c2r c2g c2b c2a
      x3 y3 c3r c3g c3b c3a =>
      gl3_draw_triangle x1 y1 c1r c1g c1b c1a x2 y2 c2r c2g c2b c2a
        x3 y3 c3r c3g c3b c3a
  | Op_draw_image img => gl3_draw_image img
  | Op_draw_text txt => gl3_draw_text txt
  end.

Fixpoint run_ops (drv : Driver) (ops : list gl3_op) : GL unit :=
  match ops with
  | [] => ret tt
  | o :: rest => (run_op drv o ;; run_ops drv rest)%gl
  end.

(** The globals an operation leaves and the calls it issues, given the
    globals it starts from. *)
Definition op_globals (o : gl3_op) (g : module_globals) : module_globals :=
  match o with
  | Op_set_view _ _ vw vh =>
      Globals (shaderProgram g) (texShaderProgram g)
        (scaled vw vh (S2D_GL_orthoMatrix g))
  | _ => g
  end.

Definition op_calls (drv : Driver) (o : gl3_op) (g : module_globals) : list gl_call :=
  match o with
  | Op_set_view ww wh vw vh =>
      set_view_calls drv g ww wh (scaled vw vh (S2D_GL_orthoMatrix g))
  | Op_check_linked program => check_linked_calls drv program
  | Op_draw_triangle x1 y1 c1r c1g c1b c1a x2 y2 c2r c2g c2b c2a
      x3 y3 c3r c3g c3b c3a =>
      [ Call_glUseProgram (shaderProgram g);
        Call_glBufferData GL_ARRAY_BUFFER 96
          (FloatData (triangle_vertices x1 y1 c1r c1g c1b c1a
                        x2 y2 c2r c2g c2b c2a x3 y3 c3r c3g c3b c3a))
          GL_STATIC_DRAW;
        Call_glDrawArrays GL_TRIANGLES 0 3 ]
  | Op_draw_image img =>
      draw_texture_calls g
        (texture_vertices (img_x img) (img_y img) (img_w img) (img_h img)
           Float32.one Float32.one Float32.one Float32.one)
        (img_texture_id img)
  | Op_draw_text txt =>
      draw_texture_calls g
        (texture_vertices (txt_x txt) (txt_y txt) (txt_w txt) (txt_h txt)
           (color_r (txt_color txt)) (color_g (txt_color txt))
           (color_b (txt_color txt)) (color_a (txt_color txt)))
        (txt_texture_id txt)
  end.

Fixpoint ops_globals (ops : list gl3_op) (g : module_globals) : module_globals :=
  match ops with
  | [] => g
  | o :: rest => ops_globals rest (op_globals o g)
  end.

Fixpoint ops_calls (drv : Driver) (ops : list gl3_op) (g : module_globals)
  : list gl_call :=
  match ops with
  | [] => []
  | o :: rest => op_calls drv o g ++ ops_calls drv rest (op_globals o g)
  end.

(** The viewport size of the last [gl3_set_view] of a sequence. *)
Fixpoint last_set_view (ops : list gl3_op) : option (Z * Z) :=
  match ops with
  | [] => None
  | o :: rest =>
      match last_set_view rest, o with
      | Some size, _ => Some size
      | None, Op_set_view _ _ vw vh => Some (vw, vh)
      | None, _ => None
      end
  end.


(** Whether every draw among the calls [l] is issued with the matching
    program active: the flat program for [glDrawArrays], the textured one for
    [glDrawElements]; [cur] is the program active before [l]. *)
Fixpoint draws_with_programs (flat textured cur : GLuint) (l : list gl_call) : bool :=
  match l with
  | [] => true
  | Call_glUseProgram p :: rest => draws_with_programs flat textured p rest
  | Call_glDrawArrays _ _ _ :: rest =>
      (cur =? flat) && draws_with_programs flat textured cur rest
  | Call_glDrawElements _ _ _ _ :: rest =>
      (cur =? textured) && draws_with_programs flat textured cur rest
  | _ :: rest => draws_with_programs flat textured cur rest
  end.

(** ** Reading the record of calls *)

(** The shader handles [S2D_GL_LoadShader] handed back, and those handed to
    [glDeleteShader], in the order of the calls. *)
Definition loaded_handles (l : list gl_call) : list GLuint :=
  omap (fun e => match e with
                 | Call_S2D_GL_LoadShader _ _ _ shader => Some shader
                 | _ => None
                 end) l.

Definition deleted_handles (l : list gl_call) : list GLuint :=
  omap (fun e => match e with
                 | Call_glDeleteShader shader => Some shader
                 | _ => None
                 end) l.

(** Whether a call, if it is a [glVertexAttribPointer], describes floats that
    are not normalised, with the 8-float stride, lying within one vertex. *)
Definition vertex_attrib_ok (e : gl_call) : bool :=
  match e with
  | Call_glVertexAttribPointer _ size GL_FLOAT normalized stride pointer =>
      (normalized =? GL_FALSE) && (stride =? 8 * sizeof_GLfloat) &&
      (1 <=? size) && (size <=? 4) &&
      (0 <=? pointer) && (pointer + size * sizeof_GLfloat <=? stride)
  | Call_glVertexAttribPointer _ _ _ _ _ _ => false
  | _ => true
  end.

(** The attribute layout a list of calls leaves in the bound vertex array:
    by attribute index, the size and byte offset of the last
    [glVertexAttribPointer] for that index. *)
Definition attrib_layout (l : list gl_call) : gmap Z (Z * Z) :=
  foldl (fun layout e =>
           match e with
           | Call_glVertexAttribPointer index size _ _ _ pointer =>
               <[index := (size, pointer)]> layout
           | _ => layout
           end) ∅ l.

(** The attribute index [gl3_init] uses for [name] in [program]. *)
Definition attrib_index (drv : Driver) (program : GLuint) (name : string) : GLuint :=
  Int32.to_GLuint (Int32.to_GLint (drv_attrib_location drv program name)).

(** Whether every call that queries or uses a program comes after a
    [glLinkProgram] of that program; [linked] are the programs linked before
    the calls [l]. *)
Fixpoint linked_before_use (linked : list GLuint) (l : list gl_call) : bool :=
  match l with
  | [] => true
  | Call_glLinkProgram p :: rest => linked_before_use (p :: linked) rest
  | Call_glGetProgramiv p _ _ :: rest
  | Call_glGetAttribLocation p _ _ :: rest
  | Call_glGetUniformLocation p _ _ :: rest
  | Call_glUseProgram p :: rest =>
      existsb (Z.eqb p) linked && linked_before_use linked rest
  | _ :: rest => linked_before_use linked rest
  end.

(** The integer a float stands for, when it stands for one. *)
Definition GLfloat_to_Z (f : GLfloat) : option Z :=
  match f with
  | S754_zero _ => Some 0
  | S754_finite sg m e =>
      let v := if sg then Zneg m else Zpos m in
      if 0 <=? e then Some (v * 2 ^ e)
      else if Zpos m mod 2 ^ (- e) =? 0 then Some (v / 2 ^ (- e))
      else None
  | _ => None
  end.

(** The corner a vertex is at, in whole pixels. *)
Definition pixel_position (v : Vertex) : option Z * option Z :=
  (GLfloat_to_Z (fst (position v)), GLfloat_to_Z (snd (position v))).

(** * Properties *)

(** ** Machine integers *)

Lemma to_GLint_range (z : Z) : Int32.in_GLint (Int32.to_GLint z).
Proof.
  unfold Int32.in_GLint, Int32.to_GLint, Int32.modulus, Int32.half_modulus.
  pose proof (Z.mod_pos_bound (z + 2 ^ 31) (2 ^ 32)). lia.
Qed.

Lemma to_GLuint_range (z : Z) : Int32.in_GLuint (Int32.to_GLuint z).
Proof.
  unfold Int32.in_GLuint, Int32.to_GLuint, Int32.modulus.
  apply Z.mod_pos_bound. lia.
Qed.

Lemma to_GLint_small (z : Z) : Int32.in_GLint z -> Int32.to_GLint z = z.
Proof.
  unfold Int32.in_GLint, Int32.to_GLint, Int32.modulus, Int32.half_modulus.
  intros Hz. rewrite Z.mod_small; lia.
Qed.

(** A location kept in a [GLuint] variable and handed back as a [GLint] is the
    location the driver reported. *)
Lemma to_GLint_to_GLuint (z : Z) :
  Int32.to_GLint (Int32.to_GLuint z) = Int32.to_GLint z.
Proof.
  unfold Int32.to_GLint, Int32.to_GLuint, Int32.modulus, Int32.half_modulus.
  rewrite Zplus_mod_idemp_l. reflexivity.
Qed.

Lemma to_GLint_idem (z : Z) : Int32.to_GLint (Int32.to_GLint z) = Int32.to_GLint z.
Proof. apply to_GLint_small, to_GLint_range. Qed.

(** ** Signs of binary32 results *)

Section Signs.

Variables prec emax : Z.

Lemma shr_1_nonneg (mrs : shr_record) : 0 <= shr_m mrs -> 0 <= shr_m (shr_1 mrs).
Proof.
  destruct mrs as [m r s]. cbn [shr_m]. intros Hm.
  destruct m as [|[p|p|]|p]; cbn; lia.
Qed.

Lemma iter_shr_1_nonneg (p : positive) :
  forall mrs, 0 <= shr_m mrs -> 0 <= shr_m (SpecFloat.iter_pos shr_1 p mrs).
Proof.
  induction p as [p IH|p IH|]; intros mrs Hm; cbn [SpecFloat.iter_pos].
  - apply IH, IH, shr_1_nonneg, Hm.
  - apply IH, IH, Hm.
  - apply shr_1_nonneg, Hm.
Qed.

Lemma shr_nonneg (mrs : shr_record) (e n : Z) :
  0 <= shr_m mrs -> 0 <= shr_m (fst (shr mrs e n)).
Proof.
  intros Hm. destruct n; cbn [shr fst]; auto using iter_shr_1_nonneg.
Qed.

Lemma shr_record_of_loc_m (m : Z) (l : location) : shr_m (shr_record_of_loc m l) = m.
Proof. destruct l as [|[]]; reflexivity. Qed.

Lemma shr_fexp_nonneg (m e : Z) (l : location) :
  0 <= m -> 0 <= shr_m (fst (shr_fexp prec emax m e l)).
Proof.
  intros Hm. unfold shr_fexp. apply shr_nonneg.
  rewrite shr_record_of_loc_m. exact Hm.
Qed.

Lemma round_nearest_even_nonneg (m : Z) (l : location) :
  0 <= m -> 0 <= round_nearest_even m l.
Proof.
  intros Hm. unfold round_nearest_even.
  destruct l as [|[]]; try destruct (Z.even m); lia.
Qed.

(** Rounding a non-negative mantissa keeps the sign it was given and never
    yields a NaN. *)
Lemma binary_round_aux_sign (sx : bool) (mx ex : Z) (lx : location) :
  0 <= mx -> has_sign sx (binary_round_aux prec emax sx mx ex lx) = true.
Proof.
  intros Hm. unfold binary_round_aux.
  pose proof (shr_fexp_nonneg mx ex lx Hm) as H1.
  destruct (shr_fexp prec emax mx ex lx) as [mrs' e']. cbn [fst] in H1.
  pose proof (shr_fexp_nonneg _ e' loc_Exact
                (round_nearest_even_nonneg _ (loc_of_shr_record mrs') H1)) as H2.
  destruct (shr_fexp prec emax _ e' loc_Exact) as [mrs'' e'']. cbn [fst] in H2.
  destruct (shr_m mrs'') as [|m|m].
  - cbn. destruct sx; reflexivity.
  - destruct (e'' <=? emax - prec); cbn; destruct sx; reflexivity.
  - lia.
Qed.

Lemma binary_normalize_pos_sign (n e : Z) :
  0 < n -> has_sign false (binary_normalize prec emax n e false) = true.
Proof.
  intros Hn. destruct n as [|p|p]; try lia.
  cbn [binary_normalize]. unfold binary_round.
  destruct (shl_align p e _) as [mz ez].
  apply binary_round_aux_sign. lia.
Qed.

Lemma SFdiv_finite_sign (sx : bool) (mx : positive) (ex : Z) (y : spec_float) :
  has_sign false y = true ->
  has_sign sx (SFdiv prec emax (S754_finite sx mx ex) y) = true.
Proof.
  intros Hy. destruct y as [sy|sy| |sy my ey]; cbn in Hy; try discriminate;
    destruct sy; try discriminate; cbn [SFdiv].
  - destruct sx; reflexivity.
  - destruct sx; reflexivity.
  - unfold SFdiv_core_binary.
    set (m' := match _ - _ - _ with Z0 => _ | Zpos _ => _ | Zneg _ => _ end).
    assert (0 <= m') as Hm'.
    { subst m'. destruct (_ - _ - _); try lia. apply Z.shiftl_nonneg. lia. }
    pose proof (Z.div_eucl_eq m' (Z.pos my) ltac:(lia)) as Heq.
    pose proof (Z.mod_pos_bound m' (Z.pos my) ltac:(lia)) as Hr.
    unfold Z.modulo in Hr.
    destruct (Z.div_eucl m' (Z.pos my)) as [q r].
    replace (xorb sx false) with sx by (destruct sx; reflexivity).
    apply binary_round_aux_sign. nia.
Qed.

End Signs.

(** [2.0f / (GLfloat)n] has its sign bit clear and [-2.0f / (GLfloat)n] has it
    set, for a positive [int] [n]; neither is a NaN. *)
Lemma scale_x_sign (n : Z) :
  0 < n -> has_sign false (Float32.div Float32.two (Float32.of_int n)) = true.
Proof.
  intros Hn. change Float32.two with (S754_finite false 8388608 (-22)).
  apply SFdiv_finite_sign, binary_normalize_pos_sign, Hn.
Qed.

Lemma scale_y_sign (n : Z) :
  0 < n ->
  has_sign true (Float32.div (Float32.neg Float32.two) (Float32.of_int n)) = true.
Proof.
  intros Hn. change (Float32.neg Float32.two) with (S754_finite true 8388608 (-22)).
  apply SFdiv_finite_sign, binary_normalize_pos_sign, Hn.
Qed.

(** ** Running computations

    Every computation of the module takes a state of the form [after g l s]
    to another one; the lemmas below push a computation through such a state
    one call at a time. *)

Lemma exec_bind {A B : Type} (m : GL A) (k : A -> GL B) (s : gl_state) :
  exec (bind m k) s = exec (k (result m s)) (exec m s).
Proof. unfold exec, result, bind. destruct (m s); reflexivity. Qed.

Lemma result_bind {A B : Type} (m : GL A) (k : A -> GL B) (s : gl_state) :
  result (bind m k) s = result (k (result m s)) (exec m s).
Proof. unfold exec, result, bind. destruct (m s); reflexivity. Qed.

Lemma after_nil (s : gl_state) : after (globals s) [] s = s.
Proof.
  destruct s as [g c l]. unfold after. cbn. rewrite app_nil_r. reflexivity.
Qed.

Lemma run_calls_app (l1 l2 : list gl_call) (c : gl_context) :
  run_calls (l1 ++ l2) c = run_calls l2 (run_calls l1 c).
Proof. apply foldl_app. Qed.

Lemma emit_after (e : gl_call) (g : module_globals) (l : list gl_call)
  (s : gl_state) :
  emit e (after g l s) = (tt, after g (l ++ [e]) s).
Proof.
  unfold emit, after. cbn [globals context calls].
  rewrite run_calls_app, <- app_assoc. reflexivity.
Qed.

Lemma get_globals_after (g : module_globals) (l : list gl_call) (s : gl_state) :
  get_globals (after g l s) = (g, after g l s).
Proof. reflexivity. Qed.

Lemma get_context_after (g : module_globals) (l : list gl_call) (s : gl_state) :
  get_context (after g l s) = (run_calls l (context s), after g l s).
Proof. reflexivity. Qed.

Lemma put_globals_after (g' g : module_globals) (l : list gl_call) (s : gl_state) :
  put_globals g' (after g l s) = (tt, after g' l s).
Proof. reflexivity. Qed.

Lemma ret_after {A : Type} (a : A) (g : module_globals) (l : list gl_call)
  (s : gl_state) :
  ret a (after g l s) = (a, after g l s).
Proof. reflexivity. Qed.

Lemma issued_after {A : Type} (m : GL A) (s : gl_state) (a : A)
  (g : module_globals) (l : list gl_call) :
  m s = (a, after g l s) -> issued m s = l.
Proof.
  unfold issued, exec. intros ->. cbn [snd after calls]. apply drop_app_length.
Qed.

Create Rewrite HintDb gl_run.
#[local] Hint Rewrite emit_after get_globals_after get_context_after
  put_globals_after @ret_after : gl_run.

(** Unfold the external functions down to [emit]. *)
Ltac gl_prims :=
  cbv delta [store_orthoMatrix set_shaderProgram set_texShaderProgram
       glGetProgramiv S2D_Log S2D_GL_PrintError glViewport glUseProgram
       glGetUniformLocation glUniformMatrix4fv glEnable glBlendFunc
       glGenVertexArrays glBindVertexArray glGenBuffers glBindBuffer
       S2D_GL_LoadShader glCreateProgram glAttachShader glBindFragDataLocation
       glLinkProgram glGetAttribLocation glVertexAttribPointer
       glEnableVertexAttribArray glDeleteShader glBufferData glDrawArrays
       glBindTexture glDrawElements bind].

(** Evaluate the effect of explicit calls on a context. *)
Ltac ctx_simpl :=
  cbn [app run_calls foldl gl_step set_viewport set_blend_enabled set_blend_func
       set_vertex_array_binding set_array_buffer_binding
       set_element_array_buffer_binding set_current_program
       set_texture_binding_2d set_uniform_uploads set_buffer_store
       bump_vertex_arrays bump_buffers bump_programs bound_buffer
       viewport blend_enabled blend_func vertex_array_binding
       array_buffer_binding element_array_buffer_binding current_program
       texture_binding_2d uniform_uploads buffer_store
       n_vertex_arrays n_buffers n_programs
       shaderProgram texShaderProgram S2D_GL_orthoMatrix].

Ltac gl_step_tac :=
  progress (autorewrite with gl_run; cbv beta iota zeta; ctx_simpl).

Ltac gl_run := gl_prims; cbv beta; repeat gl_step_tac.

(** ** Closed forms of the functions of [gl3.c] *)

Section ClosedForms.

Variable drv : Driver.

Lemma gl3_set_view_after (g : module_globals) (l : list gl_call) (s : gl_state)
  (ww wh vw vh : Z) :
  let m' := scaled vw vh (S2D_GL_orthoMatrix g) in
  gl3_set_view drv ww wh vw vh (after g l s) =
  (tt, after (Globals (shaderProgram g) (texShaderProgram g) m')
         (l ++ set_view_calls drv g ww wh m') s).
Proof.
  unfold gl3_set_view. gl_run.
  rewrite !to_GLint_to_GLuint, !to_GLint_idem, <- !app_assoc.
  reflexivity.
Qed.

Lemma gl3_check_linked_after (program : GLuint) (g : module_globals)
  (l : list gl_call) (s : gl_state) :
  gl3_check_linked drv program (after g l s) =
  (if link_status drv program =? 0 then GL_FALSE else GL_TRUE,
   after g (l ++ check_linked_calls drv program) s).
Proof.
  unfold gl3_check_linked, check_linked_calls. gl_run.
  fold (link_status drv program).
  destruct (link_status drv program =? 0); gl_run;
    rewrite <- ?app_assoc; reflexivity.
Qed.

Lemma gl3_init_after (s : gl_state) (width height : Z) :
  gl3_init drv width height s =
  (init_result drv s,
   after (init_globals drv s width height) (init_calls drv s width height) s).
Proof.
  rewrite <- (after_nil s) at 1.
  unfold gl3_init.
  unfold init_result, init_globals, init_calls, textured_program_calls,
    flat_program_calls, link_calls, check_linked_calls.
  gl_run.
  fold (first_program drv s).
  destruct (first_program drv s =? 0) eqn:E1.
  - gl_run. reflexivity.
  - gl_run. rewrite gl3_check_linked_after. unfold check_linked_calls.
    destruct (link_status drv (first_program drv s) =? 0) eqn:L1;
      gl_run; fold (second_program drv s);
      (destruct (second_program drv s =? 0) eqn:E2;
       [ gl_run; reflexivity | ]);
      gl_run; rewrite gl3_check_linked_after; unfold check_linked_calls;
      (destruct (link_status drv (second_program drv s) =? 0) eqn:L2);
      gl_run; rewrite gl3_set_view_after; gl_run; reflexivity.
Qed.

End ClosedForms.

Lemma gl3_draw_triangle_after (g : module_globals) (l : list gl_call) (s : gl_state)
  (x1 y1 c1r c1g c1b c1a x2 y2 c2r c2g c2b c2a x3 y3 c3r c3g c3b c3a : GLfloat) :
  let vertices :=
    triangle_vertices x1 y1 c1r c1g c1b c1a x2 y2 c2r c2g c2b c2a
      x3 y3 c3r c3g c3b c3a in
  gl3_draw_triangle x1 y1 c1r c1g c1b c1a x2 y2 c2r c2g c2b c2a
    x3 y3 c3r c3g c3b c3a (after g l s) =
  (tt, after g
         (l ++ [ Call_glUseProgram (shaderProgram g);
                 Call_glBufferData GL_ARRAY_BUFFER 96 (FloatData vertices)
                   GL_STATIC_DRAW;
                 Call_glDrawArrays GL_TRIANGLES 0 3 ]) s).
Proof.
  unfold gl3_draw_triangle. gl_run. rewrite <- !app_assoc. reflexivity.
Qed.

Lemma gl3_draw_texture_after (g : module_globals) (l : list gl_call) (s : gl_state)
  (x y w h : Z) (r gr b a : GLfloat) (texture_id : GLuint) :
  gl3_draw_texture x y w h r gr b a texture_id (after g l s) =
  (tt, after g
         (l ++ draw_texture_calls g (texture_vertices x y w h r gr b a) texture_id)
         s).
Proof.
  unfold gl3_draw_texture. gl_run. rewrite <- !app_assoc. reflexivity.
Qed.

(** The functions of [gl3.c] from an arbitrary state. *)

Lemma gl3_set_view_run (drv : Driver) (s : gl_state) (ww wh vw vh : Z) :
  gl3_set_view drv ww wh vw vh s =
  (tt, after (Globals (shaderProgram (globals s)) (texShaderProgram (globals s))
                (scaled vw vh (orthoMatrix s)))
         (set_view_calls drv (globals s) ww wh (scaled vw vh (orthoMatrix s))) s).
Proof.
  rewrite <- (after_nil s) at 1. rewrite gl3_set_view_after. reflexivity.
Qed.

Lemma gl3_check_linked_run (drv : Driver) (program : GLuint) (s : gl_state) :
  gl3_check_linked drv program s =
  (if link_status drv program =? 0 then GL_FALSE else GL_TRUE,
   after (globals s) (check_linked_calls drv program) s).
Proof.
  rewrite <- (after_nil s) at 1. rewrite gl3_check_linked_after. reflexivity.
Qed.

Lemma gl3_draw_triangle_run (s : gl_state)
  (x1 y1 c1r c1g c1b c1a x2 y2 c2r c2g c2b c2a x3 y3 c3r c3g c3b c3a : GLfloat) :
  gl3_draw_triangle x1 y1 c1r c1g c1b c1a x2 y2 c2r c2g c2b c2a
    x3 y3 c3r c3g c3b c3a s =
  (tt, after (globals s)
         [ Call_glUseProgram (shaderProgram (globals s));
           Call_glBufferData GL_ARRAY_BUFFER 96
             (FloatData (triangle_vertices x1 y1 c1r c1g c1b c1a
                           x2 y2 c2r c2g c2b c2a x3 y3 c3r c3g c3b c3a))
             GL_STATIC_DRAW;
           Call_glDrawArrays GL_TRIANGLES 0 3 ] s).
Proof.
  rewrite <- (after_nil s) at 1. rewrite gl3_draw_triangle_after. reflexivity.
Qed.

Lemma gl3_draw_texture_run (s : gl_state) (x y w h : Z) (r g b a : GLfloat)
  (texture_id : GLuint) :
  gl3_draw_texture x y w h r g b a texture_id s =
  (tt, after (globals s)
         (draw_texture_calls (globals s) (texture_vertices x y w h r g b a)
            texture_id) s).
Proof.
  rewrite <- (after_nil s) at 1. rewrite gl3_draw_texture_after. reflexivity.
Qed.

(** ** The projection matrix *)

Lemma scaled_0 (vw vh : Z) (m : vec GLfloat 16) :
  scaled vw vh m !!! 0%fin = Float32.div Float32.two (Float32.of_int vw).
Proof.
  unfold scaled. rewrite vlookup_insert_ne by discriminate.
  apply vlookup_insert.
Qed.

Lemma scaled_5 (vw vh : Z) (m : vec GLfloat 16) :
  scaled vw vh m !!! 5%fin =
  Float32.div (Float32.neg Float32.two) (Float32.of_int vh).
Proof. unfold scaled. apply vlookup_insert. Qed.

Lemma scaled_other (vw vh : Z) (m : vec GLfloat 16) (i : fin 16) :
  i <> 0%fin -> i <> 5%fin -> scaled vw vh m !!! i = m !!! i.
Proof.
  intros H0 H5. unfold scaled.
  rewrite !vlookup_insert_ne by congruence. reflexivity.
Qed.

(** A second scaling overwrites the first. *)
Lemma scaled_scaled (vw1 vh1 vw2 vh2 : Z) (m : vec GLfloat 16) :
  scaled vw2 vh2 (scaled vw1 vh1 m) = scaled vw2 vh2 m.
Proof.
  apply vec_eq. intros i.
  destruct (decide (i = 0%fin)) as [->|H0]; [rewrite !scaled_0; reflexivity|].
  destruct (decide (i = 5%fin)) as [->|H5]; [rewrite !scaled_5; reflexivity|].
  rewrite !scaled_other by assumption. reflexivity.
Qed.

Lemma gl3_set_view_matrix (drv : Driver) (s : gl_state) (ww wh vw vh : Z) :
  orthoMatrix (exec (gl3_set_view drv ww wh vw vh) s) = scaled vw vh (orthoMatrix s).
Proof. unfold exec. rewrite gl3_set_view_run. reflexivity. Qed.

Lemma gl3_init_matrix (drv : Driver) (s : gl_state) (width height : Z) :
  orthoMatrix (exec (gl3_init drv width height) s) =
  if init_result drv s =? GL_TRUE then scaled width height (orthoMatrix s)
  else orthoMatrix s.
Proof.
  unfold exec. rewrite gl3_init_after. unfold init_globals, init_result.
  destruct (first_program drv s =? 0); [reflexivity|].
  destruct (second_program drv s =? 0); reflexivity.
Qed.

(** ** The model on concrete inputs *)

(** [(GLfloat)40] is 1.25 * 2^5, and [2.0f / 640] and [-2.0f / 480] are the
    binary32 neighbours of 0.003125 and -0.0041666... *)
Example of_int_40 : Float32.of_int 40 = S754_finite false 10485760 (-18).
Proof. reflexivity. Qed.

Example scale_x_640 :
  Float32.div Float32.two (Float32.of_int 640) = S754_finite false 13421773 (-32).
Proof. reflexivity. Qed.

Example scale_y_480 :
  Float32.div (Float32.neg Float32.two) (Float32.of_int 480) =
  S754_finite true 8947849 (-31).
Proof. reflexivity. Qed.

(** For a viewport width of [2^k] the scale is exactly [2^(1-k)]. *)
Lemma scale_x_power_of_two (k : nat) :
  (k <= 30)%nat ->
  Float32.div Float32.two (Float32.of_int (2 ^ Z.of_nat k)) =
  S754_finite false 8388608 (-22 - Z.of_nat k).
Proof.
  intros Hk.
  assert (Forall (fun k => Float32.div Float32.two (Float32.of_int (2 ^ Z.of_nat k)) =
                           S754_finite false 8388608 (-22 - Z.of_nat k))
                 (seq 0 31)) as Hall.
  { repeat (apply Forall_cons; split; [vm_compute; reflexivity|]). apply Forall_nil_2. }
  rewrite Forall_forall in Hall. apply Hall.
  apply elem_of_seq. lia.
Qed.

(** A division by a zero viewport size is not an error: the scale becomes an
    infinity. *)
Example scale_x_0 :
  Float32.div Float32.two (Float32.of_int 0) = S754_infinity false.
Proof. reflexivity. Qed.

(** Wrap-around of the integer conversions. *)
Example to_GLuint_minus_1 : Int32.to_GLuint (-1) = 4294967295.
Proof. reflexivity. Qed.

Example to_GLint_max_GLuint : Int32.to_GLint 4294967295 = -1.
Proof. reflexivity. Qed.

(** A start-up on the sample driver: both programs exist, the textured one is
    active, the buffers are bound. *)
Example started_state_summary :
  result (gl3_init good_driver 640 480) fresh_state = GL_TRUE /\
  shaderProgram (globals started_state) = 21 /\
  texShaderProgram (globals started_state) = 22 /\
  current_program (context started_state) = 22 /\
  array_buffer_binding (context started_state) = 1 /\
  element_array_buffer_binding (context started_state) = 2 /\
  length (calls started_state) = 48%nat.
Proof. repeat apply conj; vm_compute; reflexivity. Qed.

(** Unfold the call lists of [gl3_init] and split on what the driver
    answered: the two program handles and the two link statuses. *)
Ltac init_unfold :=
  unfold init_result, init_globals, init_calls, init_setup_calls,
    textured_program_calls, flat_program_calls, link_calls, attrib_calls,
    cleanup_calls, set_view_calls, check_linked_calls in *.

Ltac init_cases drv s :=
  init_unfold;
  destruct (first_program drv s =? 0) eqn:?E1;
  destruct (second_program drv s =? 0) eqn:?E2;
  destruct (link_status drv (first_program drv s) =? 0) eqn:?L1;
  destruct (link_status drv (second_program drv s) =? 0) eqn:?L2.

(** * The claims *)

(** C1.  For every call to [gl3_set_view] with positive viewport width and
    height, afterwards entry 0 of the projection matrix is
    [2.0f / (GLfloat)viewport_width] and entry 5 is
    [-2.0f / (GLfloat)viewport_height] (the former with its sign bit clear,
    the latter with it set, neither a NaN), and the whole matrix has been
    uploaded to the [u_mvpMatrix] uniform of the flat program and then of the
    textured program. *)
Theorem gl3_set_view_scales_and_uploads
  (drv : Driver) (s : gl_state) (ww wh vw vh : Z) :
  0 < vw -> 0 < vh ->
  let s' := exec (gl3_set_view drv ww wh vw vh) s in
  let flat := shaderProgram (globals s) in
  let textured := texShaderProgram (globals s) in
  orthoMatrix s' !!! 0%fin = Float32.div Float32.two (Float32.of_int vw) /\
  orthoMatrix s' !!! 5%fin =
    Float32.div (Float32.neg Float32.two) (Float32.of_int vh) /\
  has_sign false (orthoMatrix s' !!! 0%fin) = true /\
  has_sign true (orthoMatrix s' !!! 5%fin) = true /\
  issued (gl3_set_view drv ww wh vw vh) s =
    [ Call_glViewport 0 0 ww wh;
      Call_glUseProgram flat;
      Call_glGetUniformLocation flat "u_mvpMatrix" (mvp_location drv flat);
      Call_glUniformMatrix4fv (mvp_location drv flat) 1 GL_FALSE (orthoMatrix s');
      Call_glUseProgram textured;
      Call_glGetUniformLocation textured "u_mvpMatrix" (mvp_location drv textured);
      Call_glUniformMatrix4fv (mvp_location drv textured) 1 GL_FALSE
        (orthoMatrix s') ] /\
  uniform_uploads (context s') !! (flat, mvp_location drv flat) =
    Some (orthoMatrix s') /\
  uniform_uploads (context s') !! (textured, mvp_location drv textured) =
    Some (orthoMatrix s').
Proof.
  intros Hw Hh s' flat textured.
  assert (orthoMatrix s' = scaled vw vh (orthoMatrix s)) as Hm
    by apply gl3_set_view_matrix.
  rewrite Hm, scaled_0, scaled_5.
  repeat split.
  - apply scale_x_sign, Hw.
  - apply scale_y_sign, Hh.
  - apply (issued_after _ _ tt _ _ (gl3_set_view_run drv s ww wh vw vh)).
  - subst s'. unfold exec. rewrite gl3_set_view_run.
    unfold after, set_view_calls. cbn [snd context]. ctx_simpl.
    rewrite lookup_insert. case_decide; [reflexivity|].
    apply lookup_insert_eq.
  - subst s'. unfold exec. rewrite gl3_set_view_run.
    unfold after, set_view_calls. cbn [snd context]. ctx_simpl.
    apply lookup_insert_eq.
Qed.

Lemma gl3_set_view_scales_and_uploads_witness :
  0 < 800 /\ 0 < 600 /\
  orthoMatrix (exec (gl3_set_view good_driver 1600 1200 800 600) started_state)
    !!! 0%fin = Float32.div Float32.two (Float32.of_int 800).
Proof.
  split; [reflexivity|]. split; [reflexivity|].
  exact (proj1 (gl3_set_view_scales_and_uploads good_driver started_state
                  1600 1200 800 600 eq_refl eq_refl)).
Defined.

(** C7.  [gl3_set_view] writes only entries 0 and 5 of the 16-entry
    projection matrix and leaves every other entry as it was; no other
    function of the module writes the matrix: [gl3_check_linked] and the draw
    functions leave it whole, and [gl3_init] changes it only through its call
    of [gl3_set_view], that is, not at all when it fails. *)
Theorem orthoMatrix_written_only_by_set_view (drv : Driver) (s : gl_state) :
  (forall (ww wh vw vh : Z) (i : fin 16),
     i <> 0%fin -> i <> 5%fin ->
     orthoMatrix (exec (gl3_set_view drv ww wh vw vh) s) !!! i = orthoMatrix s !!! i) /\
  (forall program : GLuint,
     orthoMatrix (exec (gl3_check_linked drv program) s) = orthoMatrix s) /\
  (forall x1 y1 c1r c1g c1b c1a x2 y2 c2r c2g c2b c2a x3 y3 c3r c3g c3b c3a : GLfloat,
     orthoMatrix (exec (gl3_draw_triangle x1 y1 c1r c1g c1b c1a
                          x2 y2 c2r c2g c2b c2a x3 y3 c3r c3g c3b c3a) s) =
     orthoMatrix s) /\
  (forall (x y w h : Z) (r g b a : GLfloat) (texture_id : GLuint),
     orthoMatrix (exec (gl3_draw_texture x y w h r g b a texture_id) s) =
     orthoMatrix s) /\
  (forall img : Image, orthoMatrix (exec (gl3_draw_image img) s) = orthoMatrix s) /\
  (forall txt : Text, orthoMatrix (exec (gl3_draw_text txt) s) = orthoMatrix s) /\
  (forall width height : Z,
     orthoMatrix (exec (gl3_init drv width height) s) =
     if result (gl3_init drv width height) s =? GL_TRUE
     then orthoMatrix (exec (gl3_set_view drv width height width height) s)
     else orthoMatrix s).
Proof.
  repeat apply conj; intros.
  - rewrite gl3_set_view_matrix. apply scaled_other; assumption.
  - unfold exec. rewrite gl3_check_linked_run. reflexivity.
  - unfold exec. rewrite gl3_draw_triangle_run. reflexivity.
  - unfold exec. rewrite gl3_draw_texture_run. reflexivity.
  - unfold exec, gl3_draw_image. rewrite gl3_draw_texture_run. reflexivity.
  - unfold exec, gl3_draw_text. rewrite gl3_draw_texture_run. reflexivity.
  - rewrite gl3_init_matrix, gl3_set_view_matrix.
    unfold result. rewrite gl3_init_after. reflexivity.
Qed.

Lemma orthoMatrix_written_only_by_set_view_witness :
  orthoMatrix (exec (gl3_set_view good_driver 1600 1200 800 600) started_state)
    !!! 13%fin = orthoMatrix started_state !!! 13%fin.
Proof.
  apply (proj1 (orthoMatrix_written_only_by_set_view good_driver started_state));
    discriminate.
Defined.

(** Two [gl3_set_view] calls in a row, whatever their parameters. *)
Lemma gl3_set_view_twice
  (drv : Driver) (s : gl_state) (ww1 wh1 vw1 vh1 ww2 wh2 vw2 vh2 : Z) :
  orthoMatrix (exec (gl3_set_view drv ww2 wh2 vw2 vh2)
                 (exec (gl3_set_view drv ww1 wh1 vw1 vh1) s)) =
  orthoMatrix (exec (gl3_set_view drv ww2 wh2 vw2 vh2) s).
Proof. rewrite !gl3_set_view_matrix. apply scaled_scaled. Qed.

(** C8.  After two consecutive [gl3_set_view] calls with different viewport
    sizes the projection matrix is the one the second call alone produces
    from the original matrix: its scale terms are those of the second
    viewport, and it is the same whatever the parameters of the first call
    were. *)
Theorem gl3_set_view_last_call_wins
  (drv : Driver) (s : gl_state) (ww1 wh1 vw1 vh1 ww2 wh2 vw2 vh2 : Z) :
  (vw1, vh1) <> (vw2, vh2) ->
  let twice :=
    exec (gl3_set_view drv ww2 wh2 vw2 vh2)
      (exec (gl3_set_view drv ww1 wh1 vw1 vh1) s) in
  orthoMatrix twice = orthoMatrix (exec (gl3_set_view drv ww2 wh2 vw2 vh2) s) /\
  orthoMatrix twice !!! 0%fin = Float32.div Float32.two (Float32.of_int vw2) /\
  orthoMatrix twice !!! 5%fin =
    Float32.div (Float32.neg Float32.two) (Float32.of_int vh2) /\
  (forall ww wh vw vh : Z,
     orthoMatrix (exec (gl3_set_view drv ww2 wh2 vw2 vh2)
                    (exec (gl3_set_view drv ww wh vw vh) s)) =
     orthoMatrix twice).
Proof.
  intros _ twice. subst twice. rewrite gl3_set_view_twice.
  repeat apply conj.
  - reflexivity.
  - rewrite gl3_set_view_matrix. apply scaled_0.
  - rewrite gl3_set_view_matrix. apply scaled_5.
  - intros ww wh vw vh. apply gl3_set_view_twice.
Qed.

Lemma gl3_set_view_last_call_wins_witness :
  (1024, 768) <> (800, 600) /\
  orthoMatrix (exec (gl3_set_view good_driver 800 600 800 600)
                 (exec (gl3_set_view good_driver 1024 768 1024 768) started_state)) =
  orthoMatrix (exec (gl3_set_view good_driver 800 600 800 600) started_state).
Proof.
  split; [discriminate|].
  refine (proj1 (gl3_set_view_last_call_wins good_driver started_state
                   1024 768 1024 768 800 600 800 600 _)).
  discriminate.
Defined.

(** ** Drawing *)

(** C3.  For [x = 10], [y = 20], [w = 30], [h = 40], tint [(1, 1, 1, 1)] and a
    texture [T], the textured-quad draw builds exactly the four vertices at
    (10,20), (40,20), (40,60), (10,60) with texture coordinates (0,0), (1,0),
    (1,1), (0,1), and issues one indexed draw of 6 vertices with the index
    array [{0, 1, 2, 2, 3, 0}]. *)
Theorem gl3_draw_texture_quad_example (s : gl_state) (T : GLuint) :
  let one := Float32.one in
  let zero := Float32.zero in
  let white := (one, one, one, one) in
  let vertices := texture_vertices 10 20 30 40 one one one one in
  issued (gl3_draw_texture 10 20 30 40 one one one one T) s =
    [ Call_glUseProgram (texShaderProgram (globals s));
      Call_glBindTexture GL_TEXTURE_2D T;
      Call_glBufferData GL_ARRAY_BUFFER 128 (FloatData vertices) GL_STATIC_DRAW;
      Call_glBufferData GL_ELEMENT_ARRAY_BUFFER 24 (UIntData elements)
        GL_STATIC_DRAW;
      Call_glDrawElements GL_TRIANGLES 6 GL_UNSIGNED_INT 0 ] /\
  elements = [0; 1; 2; 2; 3; 0] /\
  length vertices = 32%nat /\
  parse_vertices vertices =
    [ {| position := (Float32.of_int 10, Float32.of_int 20);
         color := white; texcoord := (zero, zero) |};
      {| position := (Float32.of_int 40, Float32.of_int 20);
         color := white; texcoord := (one, zero) |};
      {| position := (Float32.of_int 40, Float32.of_int 60);
         color := white; texcoord := (one, one) |};
      {| position := (Float32.of_int 10, Float32.of_int 60);
         color := white; texcoord := (zero, one) |} ].
Proof.
  cbv zeta. repeat apply conj; try reflexivity.
  apply (issued_after _ _ tt _ _ (gl3_draw_texture_run s 10 20 30 40 _ _ _ _ T)).
Qed.

(** C4.  For every input, [gl3_draw_triangle] builds exactly 3 interleaved
    8-float vertices, each with texture coordinates (0,0), activates the flat
    program, uploads the vertex data to the array buffer as static-draw data
    replacing what the buffer held, and issues a non-indexed triangle draw of
    exactly 3 vertices. *)
Theorem gl3_draw_triangle_submits_three_vertices (s : gl_state)
  (x1 y1 c1r c1g c1b c1a x2 y2 c2r c2g c2b c2a x3 y3 c3r c3g c3b c3a : GLfloat) :
  let draw :=
    gl3_draw_triangle x1 y1 c1r c1g c1b c1a x2 y2 c2r c2g c2b c2a
      x3 y3 c3r c3g c3b c3a in
  let vertices :=
    triangle_vertices x1 y1 c1r c1g c1b c1a x2 y2 c2r c2g c2b c2a
      x3 y3 c3r c3g c3b c3a in
  let origin := (Float32.zero, Float32.zero) in
  length vertices = 24%nat /\
  parse_vertices vertices =
    [ {| position := (x1, y1); color := (c1r, c1g, c1b, c1a); texcoord := origin |};
      {| position := (x2, y2); color := (c2r, c2g, c2b, c2a); texcoord := origin |};
      {| position := (x3, y3); color := (c3r, c3g, c3b, c3a); texcoord := origin |} ] /\
  issued draw s =
    [ Call_glUseProgram (shaderProgram (globals s));
      Call_glBufferData GL_ARRAY_BUFFER 96 (FloatData vertices) GL_STATIC_DRAW;
      Call_glDrawArrays GL_TRIANGLES 0 3 ] /\
  current_program (context (exec draw s)) = shaderProgram (globals s) /\
  buffer_store (context (exec draw s)) !! array_buffer_binding (context s) =
    Some (FloatData vertices, GL_STATIC_DRAW).
Proof.
  cbv zeta. repeat apply conj; try reflexivity.
  - apply (issued_after _ _ tt _ _
             (gl3_draw_triangle_run s x1 y1 c1r c1g c1b c1a
                x2 y2 c2r c2g c2b c2a x3 y3 c3r c3g c3b c3a)).
  - unfold exec. rewrite gl3_draw_triangle_run.
    unfold after. cbn [snd context]. ctx_simpl. apply lookup_insert_eq.
Qed.

(** C9.  [gl3_draw_image] draws its texture with the fixed tint (1,1,1,1)
    whatever the [Image] holds, [gl3_draw_text] draws with the colour of the
    [Text] as tint; both hand [x], [y], [w], [h] and the texture handle
    unchanged to [gl3_draw_texture]. *)
Theorem gl3_draw_image_and_text_tints (s : gl_state) (img : Image) (txt : Text) :
  let one := Float32.one in
  let tint :=
    (color_r (txt_color txt), color_g (txt_color txt),
     color_b (txt_color txt), color_a (txt_color txt)) in
  let img_vertices :=
    texture_vertices (img_x img) (img_y img) (img_w img) (img_h img)
      one one one one in
  let txt_vertices :=
    texture_vertices (txt_x txt) (txt_y txt) (txt_w txt) (txt_h txt)
      (color_r (txt_color txt)) (color_g (txt_color txt))
      (color_b (txt_color txt)) (color_a (txt_color txt)) in
  gl3_draw_image img s =
    gl3_draw_texture (img_x img) (img_y img) (img_w img) (img_h img)
      one one one one (img_texture_id img) s /\
  gl3_draw_text txt s =
    gl3_draw_texture (txt_x txt) (txt_y txt) (txt_w txt) (txt_h txt)
      (color_r (txt_color txt)) (color_g (txt_color txt))
      (color_b (txt_color txt)) (color_a (txt_color txt))
      (txt_texture_id txt) s /\
  issued (gl3_draw_image img) s =
    draw_texture_calls (globals s) img_vertices (img_texture_id img) /\
  issued (gl3_draw_text txt) s =
    draw_texture_calls (globals s) txt_vertices (txt_texture_id txt) /\
  map color (parse_vertices img_vertices) =
    [ (one, one, one, one); (one, one, one, one);
      (one, one, one, one); (one, one, one, one) ] /\
  map color (parse_vertices txt_vertices) = [ tint; tint; tint; tint ] /\
  map position (parse_vertices img_vertices) =
    [ (Float32.of_int (img_x img), Float32.of_int (img_y img));
      (Float32.of_int (Int32.int_add (img_x img) (img_w img)),
       Float32.of_int (img_y img));
      (Float32.of_int (Int32.int_add (img_x img) (img_w img)),
       Float32.of_int (Int32.int_add (img_y img) (img_h img)));
      (Float32.of_int (img_x img),
       Float32.of_int (Int32.int_add (img_y img) (img_h img))) ] /\
  map position (parse_vertices txt_vertices) =
    [ (Float32.of_int (txt_x txt), Float32.of_int (txt_y txt));
      (Float32.of_int (Int32.int_add (txt_x txt) (txt_w txt)),
       Float32.of_int (txt_y txt));
      (Float32.of_int (Int32.int_add (txt_x txt) (txt_w txt)),
       Float32.of_int (Int32.int_add (txt_y txt) (txt_h txt)));
      (Float32.of_int (txt_x txt),
       Float32.of_int (Int32.int_add (txt_y txt) (txt_h txt))) ] /\
  texture_binding_2d (context (exec (gl3_draw_image img) s)) = img_texture_id img /\
  texture_binding_2d (context (exec (gl3_draw_text txt) s)) = txt_texture_id txt.
Proof.
  cbv zeta. repeat apply conj; try reflexivity.
  - unfold gl3_draw_image.
    apply (issued_after _ _ tt _ _ (gl3_draw_texture_run s _ _ _ _ _ _ _ _ _)).
  - unfold gl3_draw_text.
    apply (issued_after _ _ tt _ _ (gl3_draw_texture_run s _ _ _ _ _ _ _ _ _)).
Qed.

(** ** Initialisation *)

Lemma gl3_init_result (drv : Driver) (s : gl_state) (width height : Z) :
  result (gl3_init drv width height) s = init_result drv s.
Proof. unfold result. rewrite gl3_init_after. reflexivity. Qed.

Lemma gl3_init_issued (drv : Driver) (s : gl_state) (width height : Z) :
  issued (gl3_init drv width height) s = init_calls drv s width height.
Proof. exact (issued_after _ _ _ _ _ (gl3_init_after drv s width height)). Qed.

Lemma gl3_init_exec (drv : Driver) (s : gl_state) (width height : Z) :
  exec (gl3_init drv width height) s =
  after (init_globals drv s width height) (init_calls drv s width height) s.
Proof. unfold exec. rewrite gl3_init_after. reflexivity. Qed.

(** The loader's handle depends on the compiler alone; nothing else in
    [gl3_init] looks at the compiler. *)
Lemma init_result_with_compiler (compile : GLenum -> string -> option Z)
  (drv : Driver) (s : gl_state) :
  init_result (with_compiler compile drv) s = init_result drv s.
Proof. reflexivity. Qed.

(** C2.  When the link status of a program is failure, [gl3_check_linked]
    returns [GL_FALSE] and logs an error.  [gl3_init] does not abort on it:
    with both program handles non-null it returns [GL_TRUE], keeps the handle
    of the program that failed to link, and goes on using it after the failed
    check: it makes it the active program and uploads the projection matrix
    to it. *)
Theorem link_failure_is_logged_and_ignored
  (drv : Driver) (s : gl_state) (program : GLuint) :
  link_status drv program = 0 ->
  let not_linked :=
    [ Call_glGetProgramiv program GL_LINK_STATUS 0;
      Call_S2D_Log "GL3 shader was not linked" S2D_ERROR ] in
  (result (gl3_check_linked drv program) s = GL_FALSE /\
   issued (gl3_check_linked drv program) s = not_linked) /\
  (forall width height : Z,
     first_program drv s <> 0 ->
     second_program drv s <> 0 ->
     program = first_program drv s \/ program = second_program drv s ->
     let s' := exec (gl3_init drv width height) s in
     result (gl3_init drv width height) s = GL_TRUE /\
     shaderProgram (globals s') = first_program drv s /\
     texShaderProgram (globals s') = second_program drv s /\
     exists before afterwards : list gl_call,
       issued (gl3_init drv width height) s = before ++ not_linked ++ afterwards /\
       Call_glUseProgram program ∈ afterwards /\
       Call_glUniformMatrix4fv (mvp_location drv program) 1 GL_FALSE
         (orthoMatrix s') ∈ afterwards).
Proof.
  intros Hlink not_linked. split.
  - unfold result. rewrite (issued_after _ _ _ _ _ (gl3_check_linked_run drv program s)).
    rewrite gl3_check_linked_run. unfold check_linked_calls.
    rewrite Hlink. split; reflexivity.
  - intros width height H1 H2 Hp s'. subst s'.
    rewrite gl3_init_result, gl3_init_issued, gl3_init_exec.
    apply Z.eqb_neq in H1, H2.
    unfold init_result, init_globals, init_calls. rewrite H1, H2.
    unfold after, orthoMatrix. cbn [globals shaderProgram texShaderProgram
                                    S2D_GL_orthoMatrix].
    repeat apply conj; try reflexivity.
    destruct Hp as [-> | ->].
    + exists (init_setup_calls drv s ++
              [ Call_glAttachShader (first_program drv s)
                  (loaded_shader drv GL_VERTEX_SHADER vertexSource);
                Call_glAttachShader (first_program drv s)
                  (loaded_shader drv GL_FRAGMENT_SHADER fragmentSource);
                Call_glBindFragDataLocation (first_program drv s) 0 "outColor";
                Call_glLinkProgram (first_program drv s) ]).
      eexists. split.
      * unfold flat_program_calls, link_calls, check_linked_calls.
        rewrite Hlink. subst not_linked. cbn [Z.eqb].
        rewrite <- !app_assoc. reflexivity.
      * unfold set_view_calls. cbn [shaderProgram texShaderProgram].
        split; set_solver.
    + exists (init_setup_calls drv s ++ flat_program_calls drv s ++
              [ Call_glCreateProgram (second_program drv s);
                Call_glAttachShader (second_program drv s)
                  (loaded_shader drv GL_VERTEX_SHADER vertexSource);
                Call_glAttachShader (second_program drv s)
                  (loaded_shader drv GL_FRAGMENT_SHADER texFragmentSource);
                Call_glBindFragDataLocation (second_program drv s) 0 "outColor";
                Call_glLinkProgram (second_program drv s) ]).
      eexists. split.
      * unfold textured_program_calls, link_calls, check_linked_calls.
        rewrite Hlink. subst not_linked. cbn [Z.eqb].
        rewrite <- !app_assoc. reflexivity.
      * unfold set_view_calls. cbn [shaderProgram texShaderProgram].
        split; set_solver.
Qed.

Lemma link_failure_is_logged_and_ignored_witness :
  link_status failing_linker_driver 21 = 0 /\
  result (gl3_check_linked failing_linker_driver 21) fresh_state = GL_FALSE /\
  result (gl3_init failing_linker_driver 640 480) fresh_state = GL_TRUE.
Proof.
  split; [reflexivity|].
  pose proof (link_failure_is_logged_and_ignored failing_linker_driver
                fresh_state 21 eq_refl) as [[Hcheck _] Hinit].
  split; [exact Hcheck|].
  refine (proj1 (Hinit 640 480 _ _ _)).
  - discriminate.
  - discriminate.
  - left. reflexivity.
Defined.

(** C5, as the code has it.  [gl3_init] never looks at the handles that
    [S2D_GL_LoadShader] hands back: its result is the same whatever the GLSL
    compiler does.  It returns [GL_FALSE] exactly when one of its two
    [glCreateProgram] calls yields the null handle, and [GL_TRUE] otherwise,
    also when every shader failed to compile. *)
Theorem gl3_init_result_ignores_compilation
  (drv : Driver) (s : gl_state) (width height : Z) :
  (forall compile : GLenum -> string -> option Z,
     result (gl3_init (with_compiler compile drv) width height) s =
     result (gl3_init drv width height) s) /\
  result (gl3_init drv width height) s =
    (if first_program drv s =? 0 then GL_FALSE
     else if second_program drv s =? 0 then GL_FALSE
     else GL_TRUE).
Proof.
  split.
  - intros compile. rewrite !gl3_init_result. apply init_result_with_compiler.
  - apply gl3_init_result.
Qed.

(** C5 as stated fails: with a compiler that rejects all three sources,
    [gl3_init] attaches the null shader handles and returns [GL_TRUE]. *)
Lemma gl3_init_compile_failure_not_reported :
  drv_compile_shader failing_compiler_driver GL_VERTEX_SHADER vertexSource = None /\
  drv_compile_shader failing_compiler_driver GL_FRAGMENT_SHADER fragmentSource = None /\
  drv_compile_shader failing_compiler_driver GL_FRAGMENT_SHADER texFragmentSource = None /\
  result (gl3_init failing_compiler_driver 640 480) fresh_state = GL_TRUE /\
  Call_glAttachShader 21 0 ∈ issued (gl3_init failing_compiler_driver 640 480) fresh_state /\
  GL_TRUE <> GL_FALSE.
Proof.
  repeat apply conj; try reflexivity.
  - rewrite gl3_init_issued. vm_compute. set_solver.
  - discriminate.
Qed.

(** C6.  If either [glCreateProgram] call yields the null handle, [gl3_init]
    logs an error and returns [GL_FALSE]; nothing is rolled back: blending
    stays enabled with the function it was given, the vertex array and the two
    buffers stay allocated and bound, and no object has been released. *)
Theorem gl3_init_program_creation_failure
  (drv : Driver) (s : gl_state) (width height : Z) :
  first_program drv s = 0 \/ second_program drv s = 0 ->
  let s' := exec (gl3_init drv width height) s in
  result (gl3_init drv width height) s = GL_FALSE /\
  last (issued (gl3_init drv width height) s) =
    Some (Call_S2D_GL_PrintError "Failed to create shader program") /\
  blend_enabled (context s') = true /\
  blend_func (context s') = Some (GL_SRC_ALPHA, GL_ONE_MINUS_SRC_ALPHA) /\
  vertex_array_binding (context s') = init_vao drv s /\
  array_buffer_binding (context s') = init_vbo drv s /\
  element_array_buffer_binding (context s') = init_ebo drv s /\
  n_vertex_arrays (context s') = S (n_vertex_arrays (context s)) /\
  n_buffers (context s') = S (S (n_buffers (context s))) /\
  existsb is_release (issued (gl3_init drv width height) s) = false.
Proof.
  intros Hnull s'. subst s'.
  rewrite gl3_init_result, gl3_init_issued, gl3_init_exec.
  unfold after. cbn [context].
  assert ((first_program drv s =? 0) = true \/
          (first_program drv s =? 0) = false /\ (second_program drv s =? 0) = true)
    as Hcase.
  { destruct (first_program drv s =? 0) eqn:E; [left; reflexivity|].
    right. split; [reflexivity|]. apply Z.eqb_eq.
    destruct Hnull as [H|H]; [|exact H]. apply Z.eqb_neq in E. contradiction. }
  clear Hnull.
  init_cases drv s;
    destruct Hcase as [Hc | [Hc1 Hc2]]; try discriminate;
    ctx_simpl; cbn [existsb is_release orb last];
    repeat apply conj; reflexivity.
Qed.

Lemma gl3_init_program_creation_failure_witness :
  second_program one_program_driver fresh_state = 0 /\
  result (gl3_init one_program_driver 640 480) fresh_state = GL_FALSE.
Proof.
  split; [reflexivity|].
  refine (proj1 (gl3_init_program_creation_failure one_program_driver fresh_state
                   640 480 _)).
  right. reflexivity.
Defined.

(** C10, as the code has it.  When [gl3_set_view] returns the textured
    program is the active one: the flat program is made active and given the
    matrix first, the textured program second.  Hence a [gl3_init] that
    returns [GL_TRUE], which ends with [gl3_set_view] and three
    [glDeleteShader] calls, also leaves the textured program active.  A
    [gl3_init] that returns [GL_FALSE] has left by one of its two early
    returns: it has made no program active, and the active program is the
    one from before the call. *)
Theorem textured_program_active_after_set_view (drv : Driver) (s : gl_state) :
  (forall ww wh vw vh : Z,
     let s' := exec (gl3_set_view drv ww wh vw vh) s in
     current_program (context s') = texShaderProgram (globals s') /\
     last_used_program (issued (gl3_set_view drv ww wh vw vh) s) =
       Some (texShaderProgram (globals s')) /\
     issued (gl3_set_view drv ww wh vw vh) s =
       [ Call_glViewport 0 0 ww wh ] ++
       [ Call_glUseProgram (shaderProgram (globals s));
         Call_glGetUniformLocation (shaderProgram (globals s)) "u_mvpMatrix"
           (mvp_location drv (shaderProgram (globals s)));
         Call_glUniformMatrix4fv (mvp_location drv (shaderProgram (globals s)))
           1 GL_FALSE (orthoMatrix s') ] ++
       [ Call_glUseProgram (texShaderProgram (globals s));
         Call_glGetUniformLocation (texShaderProgram (globals s)) "u_mvpMatrix"
           (mvp_location drv (texShaderProgram (globals s)));
         Call_glUniformMatrix4fv (mvp_location drv (texShaderProgram (globals s)))
           1 GL_FALSE (orthoMatrix s') ]) /\
  (forall width height : Z,
     result (gl3_init drv width height) s = GL_TRUE ->
     let s' := exec (gl3_init drv width height) s in
     current_program (context s') = texShaderProgram (globals s') /\
     texShaderProgram (globals s') = second_program drv s /\
     last_used_program (issued (gl3_init drv width height) s) =
       Some (second_program drv s)) /\
  (forall width height : Z,
     result (gl3_init drv width height) s = GL_FALSE ->
     let s' := exec (gl3_init drv width height) s in
     current_program (context s') = current_program (context s) /\
     last_used_program (issued (gl3_init drv width height) s) = None) /\
  (forall width height : Z,
     result (gl3_init drv width height) s = GL_TRUE \/
     result (gl3_init drv width height) s = GL_FALSE).
Proof.
  repeat apply conj.
  - intros ww wh vw vh s'. subst s'.
    rewrite (issued_after _ _ tt _ _ (gl3_set_view_run drv s ww wh vw vh)).
    unfold exec. rewrite gl3_set_view_run.
    repeat apply conj; reflexivity.
  - intros width height Hok s'. subst s'.
    rewrite gl3_init_result in Hok.
    rewrite gl3_init_issued, gl3_init_exec.
    unfold after. cbn [context globals].
    init_cases drv s; try discriminate;
      ctx_simpl; cbn [last_used_program foldl];
      repeat apply conj; reflexivity.
  - intros width height Hno s'. subst s'.
    rewrite gl3_init_result in Hno.
    rewrite gl3_init_issued, gl3_init_exec.
    unfold after. cbn [context globals].
    init_cases drv s; try discriminate;
      ctx_simpl; cbn [last_used_program foldl];
      repeat apply conj; reflexivity.
  - intros width height. rewrite gl3_init_result. unfold init_result.
    destruct (first_program drv s =? 0); [right; reflexivity|].
    destruct (second_program drv s =? 0); [right|left]; reflexivity.
Qed.

Lemma textured_program_active_after_set_view_witness :
  result (gl3_init good_driver 640 480) fresh_state = GL_TRUE /\
  current_program (context (exec (gl3_init good_driver 640 480) fresh_state)) =
  texShaderProgram (globals (exec (gl3_init good_driver 640 480) fresh_state)).
Proof.
  split; [reflexivity|].
  exact (proj1 (proj1 (proj2 (textured_program_active_after_set_view good_driver
                                fresh_state)) 640 480 eq_refl)).
Defined.

(** C10 as stated fails for a [gl3_init] that does not get through.  After a
    start-up and one triangle draw the flat program 21 is active; a second
    [gl3_init] whose first [glCreateProgram] yields the null handle returns
    [GL_FALSE] at once, and ends with program 21 still active while
    [texShaderProgram] is 22. *)
Lemma gl3_init_failure_leaves_flat_program_active :
  current_program (context drawn_state) = 21 /\
  first_program one_program_driver drawn_state = 0 /\
  result (gl3_init one_program_driver 640 480) drawn_state = GL_FALSE /\
  current_program (context (exec (gl3_init one_program_driver 640 480) drawn_state))
    = 21 /\
  texShaderProgram (globals (exec (gl3_init one_program_driver 640 480) drawn_state))
    = 22 /\
  current_program (context (exec (gl3_init one_program_driver 640 480) drawn_state))
    <> texShaderProgram
         (globals (exec (gl3_init one_program_driver 640 480) drawn_state)).
Proof.
  repeat apply conj; vm_compute; first [reflexivity | discriminate].
Qed.

(** * Further properties *)

(** ** Sequences of operations *)

Lemma run_op_after (drv : Driver) (o : gl3_op) (g : module_globals)
  (l : list gl_call) (s : gl_state) :
  run_op drv o (after g l s) = (tt, after (op_globals o g) (l ++ op_calls drv o g) s).
Proof.
  destruct o; cbn [run_op op_globals op_calls].
  - apply gl3_set_view_after.
  - unfold bind. rewrite gl3_check_linked_after. reflexivity.
  - apply gl3_draw_triangle_after.
  - unfold gl3_draw_image. rewrite gl3_draw_texture_after. reflexivity.
  - unfold gl3_draw_text. rewrite gl3_draw_texture_after. reflexivity.
Qed.

Lemma run_ops_after (drv : Driver) (ops : list gl3_op) :
  forall (g : module_globals) (l : list gl_call) (s : gl_state),
    run_ops drv ops (after g l s) =
    (tt, after (ops_globals ops g) (l ++ ops_calls drv ops g) s).
Proof.
  induction ops as [|o rest IH]; intros g l s; cbn [run_ops ops_globals ops_calls].
  - rewrite app_nil_r. reflexivity.
  - unfold bind. rewrite run_op_after, IH, <- app_assoc. reflexivity.
Qed.

Lemma run_ops_run (drv : Driver) (ops : list gl3_op) (s : gl_state) :
  run_ops drv ops s =
  (tt, after (ops_globals ops (globals s)) (ops_calls drv ops (globals s)) s).
Proof.
  rewrite <- (after_nil s) at 1. rewrite run_ops_after. reflexivity.
Qed.

Lemma op_globals_handles (o : gl3_op) (g : module_globals) :
  shaderProgram (op_globals o g) = shaderProgram g /\
  texShaderProgram (op_globals o g) = texShaderProgram g.
Proof. destruct o; split; reflexivity. Qed.







Lemma draws_with_programs_op (drv : Driver) (o : gl3_op) (g : module_globals)
  (cur : GLuint) :
  exists cur' : GLuint, forall rest : list gl_call,
    draws_with_programs (shaderProgram g) (texShaderProgram g) cur
      (op_calls drv o g ++ rest) =
    draws_with_programs (shaderProgram g) (texShaderProgram g) cur' rest.
Proof.
  destruct o; unfold op_calls, set_view_calls, check_linked_calls, draw_texture_calls.
  - exists (texShaderProgram g). reflexivity.
  - exists cur. intros rest. destruct (link_status drv program =? 0); reflexivity.
  - exists (shaderProgram g). intros rest.
    cbn [app draws_with_programs]. rewrite Z.eqb_refl. reflexivity.
  - exists (texShaderProgram g). intros rest.
    cbn [app draws_with_programs]. rewrite Z.eqb_refl. reflexivity.
  - exists (texShaderProgram g). intros rest.
    cbn [app draws_with_programs]. rewrite Z.eqb_refl. reflexivity.
Qed.

Lemma draws_with_programs_ops (drv : Driver) (ops : list gl3_op) :
  forall (g : module_globals) (cur : GLuint),
    draws_with_programs (shaderProgram g) (texShaderProgram g) cur
      (ops_calls drv ops g) = true.
Proof.
  induction ops as [|o rest IH]; intros g cur; cbn [ops_calls].
  - reflexivity.
  - destruct (draws_with_programs_op drv o g cur) as [cur' ->].
    destruct (op_globals_handles o g) as [Hf Ht].
    rewrite <- Hf, <- Ht. apply IH.
Qed.

(** X2.  In any sequence of resizes, link checks and draws, from any state,
    every [glDrawArrays] is issued while the flat program is active and every
    [glDrawElements] while the textured program is active: each draw selects
    its own program, so the order of the operations does not matter. *)
Theorem run_ops_draws_with_matching_program
  (drv : Driver) (ops : list gl3_op) (s : gl_state) :
  draws_with_programs (shaderProgram (globals s)) (texShaderProgram (globals s))
    (current_program (context s)) (issued (run_ops drv ops) s) = true.
Proof.
  rewrite (issued_after _ _ tt _ _ (run_ops_run drv ops s)).
  apply draws_with_programs_ops.
Qed.

(** The check does tell a draw under the wrong program. *)
Example draws_with_programs_rejects :
  draws_with_programs 21 22 22 [Call_glDrawArrays GL_TRIANGLES 0 3] = false.
Proof. reflexivity. Qed.

Lemma ops_globals_matrix (ops : list gl3_op) :
  forall g : module_globals,
    S2D_GL_orthoMatrix (ops_globals ops g) =
    match last_set_view ops with
    | Some (vw, vh) => scaled vw vh (S2D_GL_orthoMatrix g)
    | None => S2D_GL_orthoMatrix g
    end.
Proof.
  induction ops as [|o rest IH]; intros g; cbn [ops_globals last_set_view].
  - reflexivity.
  - rewrite IH. destruct (last_set_view rest) as [[vw vh]|].
    + destruct o; cbn [op_globals S2D_GL_orthoMatrix]; try reflexivity.
      apply scaled_scaled.
    + destruct o; reflexivity.
Qed.

(** X3.  After any sequence of resizes, link checks and draws the projection
    matrix is the original one with entries 0 and 5 set from the viewport
    size of the last [gl3_set_view] of the sequence, and the original matrix
    if there was none: earlier resizes and all draws leave no trace in it. *)
Theorem run_ops_matrix_from_last_set_view
  (drv : Driver) (ops : list gl3_op) (s : gl_state) :
  orthoMatrix (exec (run_ops drv ops) s) =
  match last_set_view ops with
  | Some (vw, vh) =>
      vinsert 5%fin (Float32.div (Float32.neg Float32.two) (Float32.of_int vh))
        (vinsert 0%fin (Float32.div Float32.two (Float32.of_int vw)) (orthoMatrix s))
  | None => orthoMatrix s
  end.
Proof.
  unfold exec. rewrite run_ops_run. unfold after, orthoMatrix. cbn [snd globals].
  apply ops_globals_matrix.
Qed.

(** ** [gl3_check_linked] *)

(** X4.  [gl3_check_linked] answers [GL_TRUE] exactly when the driver reports
    a non-zero link status and [GL_FALSE] otherwise; it logs exactly when it
    answers [GL_FALSE]; it issues one [glGetProgramiv] and changes neither
    the globals nor the context. *)
Theorem gl3_check_linked_characterised
  (drv : Driver) (program : GLuint) (s : gl_state) :
  let r := result (gl3_check_linked drv program) s in
  let s' := exec (gl3_check_linked drv program) s in
  let log := Call_S2D_Log "GL3 shader was not linked" S2D_ERROR in
  (r = GL_TRUE <-> link_status drv program <> 0) /\
  (r = GL_FALSE <-> link_status drv program = 0) /\
  (log ∈ issued (gl3_check_linked drv program) s <-> r = GL_FALSE) /\
  head (issued (gl3_check_linked drv program) s) =
    Some (Call_glGetProgramiv program GL_LINK_STATUS (link_status drv program)) /\
  globals s' = globals s /\
  context s' = context s.
Proof.
  cbv zeta. unfold result, exec.
  rewrite (issued_after _ _ _ _ _ (gl3_check_linked_run drv program s)).
  rewrite gl3_check_linked_run. unfold after, check_linked_calls.
  cbn [fst snd globals context].
  destruct (link_status drv program =? 0) eqn:E;
    [apply Z.eqb_eq in E | apply Z.eqb_neq in E];
    ctx_simpl; repeat apply conj; try reflexivity;
    intros;
    first
      [ discriminate | congruence | contradiction
      | rewrite !elem_of_cons; auto; fail
      | match goal with
        | H : _ ∈ _ |- _ =>
            rewrite !elem_of_cons, elem_of_nil in H;
            destruct H as [H|[]]; discriminate H
        end ].
Qed.

(** ** [gl3_set_view] *)


Lemma context_ext (c c' : gl_context) :
  viewport c = viewport c' ->
  blend_enabled c = blend_enabled c' ->
  blend_func c = blend_func c' ->
  vertex_array_binding c = vertex_array_binding c' ->
  array_buffer_binding c = array_buffer_binding c' ->
  element_array_buffer_binding c = element_array_buffer_binding c' ->
  current_program c = current_program c' ->
  texture_binding_2d c = texture_binding_2d c' ->
  uniform_uploads c = uniform_uploads c' ->
  buffer_store c = buffer_store c' ->
  n_vertex_arrays c = n_vertex_arrays c' ->
  n_buffers c = n_buffers c' ->
  n_programs c = n_programs c' ->
  c = c'.
Proof.
  destruct c, c'. cbn. intros. subst. reflexivity.
Qed.

(** X6.  [gl3_set_view] is idempotent: a second call with the same arguments
    leaves the globals and the whole context as the first call left them. *)
Theorem gl3_set_view_idempotent (drv : Driver) (s : gl_state) (ww wh vw vh : Z) :
  let once := exec (gl3_set_view drv ww wh vw vh) s in
  let twice := exec (gl3_set_view drv ww wh vw vh) once in
  globals twice = globals once /\ context twice = context once.
Proof.
  cbv zeta. unfold exec. rewrite !gl3_set_view_run.
  unfold after, set_view_calls, orthoMatrix.
  cbn [snd globals context shaderProgram texShaderProgram S2D_GL_orthoMatrix].
  rewrite scaled_scaled. split; [reflexivity|].
  apply context_ext; ctx_simpl; try reflexivity.
  apply map_eq. intros k.
  rewrite !lookup_insert. repeat case_decide; reflexivity.
Qed.

(** *** Viewport sizes that are not positive *)

Lemma binary_normalize_neg_sign (prec emax n e : Z) :
  n < 0 -> has_sign true (binary_normalize prec emax n e false) = true.
Proof.
  intros Hn. destruct n as [|p|p]; try lia.
  cbn [binary_normalize]. unfold binary_round.
  destruct (shl_align p e _) as [mz ez].
  apply binary_round_aux_sign. lia.
Qed.

Lemma SFdiv_finite_sign_xorb (prec emax : Z) (sx sy : bool) (mx : positive) (ex : Z)
  (y : spec_float) :
  has_sign sy y = true ->
  has_sign (xorb sx sy) (SFdiv prec emax (S754_finite sx mx ex) y) = true.
Proof.
  intros Hy.
  destruct y as [s|s| |s my ey]; cbn [has_sign] in Hy; try discriminate;
    apply Bool.eqb_prop in Hy; subst s; cbn [SFdiv has_sign].
  - apply Bool.eqb_reflx.
  - apply Bool.eqb_reflx.
  - unfold SFdiv_core_binary.
    set (m' := match _ - _ - _ with Z0 => _ | Zpos _ => _ | Zneg _ => _ end).
    assert (0 <= m') as Hm'.
    { subst m'. destruct (_ - _ - _); try lia. apply Z.shiftl_nonneg. lia. }
    pose proof (Z.div_eucl_eq m' (Z.pos my) ltac:(lia)) as Heq.
    pose proof (Z.mod_pos_bound m' (Z.pos my) ltac:(lia)) as Hr.
    unfold Z.modulo in Hr.
    destruct (Z.div_eucl m' (Z.pos my)) as [q r].
    apply binary_round_aux_sign. nia.
Qed.

(** X7.  [gl3_set_view] does not guard the viewport size.  With a width of
    0, whatever the height, the horizontal scale is [+infinity]; with a
    height of 0, whatever the width, the vertical scale is [-infinity].  In
    both cases the matrix is stored and uploaded to both programs like any
    other. *)
Theorem gl3_set_view_zero_viewport (drv : Driver) (s : gl_state) (ww wh : Z) :
  let flat := shaderProgram (globals s) in
  let textured := texShaderProgram (globals s) in
  (forall vh : Z,
     let s' := exec (gl3_set_view drv ww wh 0 vh) s in
     orthoMatrix s' !!! 0%fin = S754_infinity false /\
     Call_glUniformMatrix4fv (mvp_location drv flat) 1 GL_FALSE (orthoMatrix s')
       ∈ issued (gl3_set_view drv ww wh 0 vh) s /\
     Call_glUniformMatrix4fv (mvp_location drv textured) 1 GL_FALSE (orthoMatrix s')
       ∈ issued (gl3_set_view drv ww wh 0 vh) s) /\
  (forall vw : Z,
     let s' := exec (gl3_set_view drv ww wh vw 0) s in
     orthoMatrix s' !!! 5%fin = S754_infinity true /\
     Call_glUniformMatrix4fv (mvp_location drv flat) 1 GL_FALSE (orthoMatrix s')
       ∈ issued (gl3_set_view drv ww wh vw 0) s /\
     Call_glUniformMatrix4fv (mvp_location drv textured) 1 GL_FALSE (orthoMatrix s')
       ∈ issued (gl3_set_view drv ww wh vw 0) s).
Proof.
  cbv zeta. split.
  - intros vh.
    rewrite (issued_after _ _ tt _ _ (gl3_set_view_run drv s ww wh 0 vh)).
    rewrite gl3_set_view_matrix, scaled_0. unfold set_view_calls.
    repeat apply conj; [reflexivity | |]; rewrite !elem_of_cons; auto 10.
  - intros vw.
    rewrite (issued_after _ _ tt _ _ (gl3_set_view_run drv s ww wh vw 0)).
    rewrite gl3_set_view_matrix, scaled_5. unfold set_view_calls.
    repeat apply conj; [reflexivity | |]; rewrite !elem_of_cons; auto 10.
Qed.

(** X8.  Each scale term takes its sign from its own viewport dimension,
    whatever the other one is.  With a negative width the horizontal scale
    has its sign bit set and with a positive width it has it clear; with a
    negative height the vertical scale has its sign bit clear and with a
    positive height it has it set.  A negative dimension thus mirrors its
    axis with respect to a positive one, and no scale is a NaN. *)
Theorem gl3_set_view_negative_viewport
  (drv : Driver) (s : gl_state) (ww wh vw vh : Z) :
  let s' := exec (gl3_set_view drv ww wh vw vh) s in
  (vw < 0 -> has_sign true (orthoMatrix s' !!! 0%fin) = true) /\
  (0 < vw -> has_sign false (orthoMatrix s' !!! 0%fin) = true) /\
  (vh < 0 -> has_sign false (orthoMatrix s' !!! 5%fin) = true) /\
  (0 < vh -> has_sign true (orthoMatrix s' !!! 5%fin) = true).
Proof.
  cbv zeta. rewrite gl3_set_view_matrix, scaled_0, scaled_5.
  repeat apply conj.
  - intros Hw. change Float32.two with (S754_finite false 8388608 (-22)).
    apply (SFdiv_finite_sign_xorb _ _ false true), binary_normalize_neg_sign, Hw.
  - apply scale_x_sign.
  - intros Hh. change (Float32.neg Float32.two) with (S754_finite true 8388608 (-22)).
    apply (SFdiv_finite_sign_xorb _ _ true true), binary_normalize_neg_sign, Hh.
  - apply scale_y_sign.
Qed.

Lemma gl3_set_view_negative_viewport_witness :
  (-800 < 0 /\
   has_sign true
     (orthoMatrix (exec (gl3_set_view good_driver 800 600 (-800) 600) fresh_state)
        !!! 0%fin) = true) /\
  (-600 < 0 /\
   has_sign false
     (orthoMatrix (exec (gl3_set_view good_driver 800 600 800 (-600)) fresh_state)
        !!! 5%fin) = true).
Proof.
  split; (split; [reflexivity|]).
  - exact (proj1 (gl3_set_view_negative_viewport good_driver fresh_state
                    800 600 (-800) 600) eq_refl).
  - exact (proj1 (proj2 (proj2 (gl3_set_view_negative_viewport good_driver
                                  fresh_state 800 600 800 (-600)))) eq_refl).
Defined.

(** ** [gl3_init] *)

(** X9.  [gl3_init] returns [GL_TRUE] exactly when both program globals are
    non-null afterwards.  [shaderProgram] is overwritten with the handle the
    first [glCreateProgram] yields even when that handle is null;
    [texShaderProgram] is overwritten only if the first creation
    succeeded. *)
Theorem gl3_init_success_iff_programs
  (drv : Driver) (s : gl_state) (width height : Z) :
  let s' := exec (gl3_init drv width height) s in
  let r := result (gl3_init drv width height) s in
  (r = GL_TRUE <->
   shaderProgram (globals s') <> 0 /\ texShaderProgram (globals s') <> 0) /\
  (r = GL_TRUE \/ r = GL_FALSE) /\
  shaderProgram (globals s') = first_program drv s /\
  texShaderProgram (globals s') =
    (if first_program drv s =? 0 then texShaderProgram (globals s)
     else second_program drv s).
Proof.
  cbv zeta. rewrite gl3_init_result, gl3_init_exec.
  unfold after, init_result, init_globals. cbn [globals].
  destruct (first_program drv s =? 0) eqn:E1;
    [apply Z.eqb_eq in E1 | apply Z.eqb_neq in E1];
    [| destruct (second_program drv s =? 0) eqn:E2;
       [apply Z.eqb_eq in E2 | apply Z.eqb_neq in E2]];
    cbn [shaderProgram texShaderProgram];
    (split; [split; [try discriminate; intros _; split; assumption
                    | intros [H1 H2]; try reflexivity; congruence] |]);
    repeat apply conj; try reflexivity; auto.
Qed.

(** X10.  Every [gl3_init] asks the driver for one vertex array, two buffers
    and three shaders, and for one program if the first creation fails and
    two otherwise.  When it succeeds it deletes exactly the three shaders it
    loaded; when it fails it deletes none of them. *)
Theorem gl3_init_accounting (drv : Driver) (s : gl_state) (width height : Z) :
  let s' := exec (gl3_init drv width height) s in
  let l := issued (gl3_init drv width height) s in
  n_vertex_arrays (context s') = S (n_vertex_arrays (context s)) /\
  n_buffers (context s') = S (S (n_buffers (context s))) /\
  n_programs (context s') =
    (if first_program drv s =? 0 then S (n_programs (context s))
     else S (S (n_programs (context s)))) /\
  loaded_handles l =
    [ loaded_shader drv GL_VERTEX_SHADER vertexSource;
      loaded_shader drv GL_FRAGMENT_SHADER fragmentSource;
      loaded_shader drv GL_FRAGMENT_SHADER texFragmentSource ] /\
  deleted_handles l =
    (if result (gl3_init drv width height) s =? GL_TRUE then loaded_handles l
     else []).
Proof.
  cbv zeta. rewrite gl3_init_result, gl3_init_issued, gl3_init_exec.
  unfold after. cbn [context].
  init_cases drv s; ctx_simpl; repeat apply conj; reflexivity.
Qed.

(** X11.  Whatever the driver answers, every [glVertexAttribPointer] that
    [gl3_init] issues describes between 1 and 4 unnormalised floats with a
    stride of 8 floats, at an offset that keeps the attribute within one
    vertex. *)
Theorem gl3_init_vertex_attribs_within_stride
  (drv : Driver) (s : gl_state) (width height : Z) :
  forallb vertex_attrib_ok (issued (gl3_init drv width height) s) = true.
Proof.
  rewrite gl3_init_issued.
  init_cases drv s; reflexivity.
Qed.

(** The check does tell an attribute that runs past the vertex. *)
Example vertex_attrib_ok_rejects :
  vertex_attrib_ok (Call_glVertexAttribPointer 2 4 GL_FLOAT GL_FALSE 32 24) = false.
Proof. reflexivity. Qed.

(** X12.  In [gl3_init] no program is queried or made active before
    [glLinkProgram] has been issued for it. *)
Theorem gl3_init_links_before_use (drv : Driver) (s : gl_state) (width height : Z) :
  linked_before_use [] (issued (gl3_init drv width height) s) = true.
Proof.
  rewrite gl3_init_issued.
  init_cases drv s;
    cbn [app linked_before_use existsb shaderProgram texShaderProgram];
    rewrite ?Z.eqb_refl; cbn [orb andb];
    rewrite ?Bool.orb_true_r; reflexivity.
Qed.

Example linked_before_use_rejects :
  linked_before_use [] [Call_glUseProgram 21; Call_glLinkProgram 21] = false.
Proof. reflexivity. Qed.

(** X13.  The five attribute settings of a successful [gl3_init] go into one
    vertex array, so the later ones win: if the textured program's three
    attribute indices are distinct, the array ends with [position] as 2
    floats at byte 0, [color] as 4 floats at byte 8 and [texcoord] as 2
    floats at byte 24 under those indices, whatever indices the flat program
    had.  The flat program therefore reads its vertices correctly only where
    its indices agree with the textured program's. *)
Theorem gl3_init_attrib_layout (drv : Driver) (s : gl_state) (width height : Z) :
  let textured := second_program drv s in
  let layout := attrib_layout (issued (gl3_init drv width height) s) in
  result (gl3_init drv width height) s = GL_TRUE ->
  attrib_index drv textured "position" <> attrib_index drv textured "color" ->
  attrib_index drv textured "position" <> attrib_index drv textured "texcoord" ->
  attrib_index drv textured "color" <> attrib_index drv textured "texcoord" ->
  layout !! attrib_index drv textured "position" = Some (2, 0) /\
  layout !! attrib_index drv textured "color" = Some (4, 8) /\
  layout !! attrib_index drv textured "texcoord" = Some (2, 24).
Proof.
  cbv zeta. rewrite gl3_init_result, gl3_init_issued.
  unfold attrib_index. intros Hok Hpc Hpt Hct.
  init_cases drv s; try discriminate;
    cbn [app attrib_layout foldl];
    change (8 * sizeof_GLfloat) with 32;
    repeat apply conj;
    rewrite !lookup_insert; repeat case_decide; congruence.
Qed.

Lemma gl3_init_attrib_layout_witness :
  result (gl3_init good_driver 640 480) fresh_state = GL_TRUE /\
  attrib_layout (issued (gl3_init good_driver 640 480) fresh_state) !! 2 =
    Some (2, 24).
Proof.
  split; [reflexivity|].
  refine (proj2 (proj2 (gl3_init_attrib_layout good_driver fresh_state 640 480
                          eq_refl _ _ _))); discriminate.
Defined.

Lemma gl3_init_bindings (drv : Driver) (s : gl_state) (width height : Z) :
  let s' := exec (gl3_init drv width height) s in
  vertex_array_binding (context s') = init_vao drv s /\
  array_buffer_binding (context s') = init_vbo drv s /\
  element_array_buffer_binding (context s') = init_ebo drv s /\
  buffer_store (context s') = buffer_store (context s).
Proof.
  cbv zeta. rewrite gl3_init_exec. unfold after. cbn [context].
  init_cases drv s; ctx_simpl; repeat apply conj; reflexivity.
Qed.

Lemma gl3_set_view_exec (drv : Driver) (s : gl_state) (ww wh vw vh : Z) :
  exec (gl3_set_view drv ww wh vw vh) s =
  after (Globals (shaderProgram (globals s)) (texShaderProgram (globals s))
           (scaled vw vh (orthoMatrix s)))
    (set_view_calls drv (globals s) ww wh (scaled vw vh (orthoMatrix s))) s.
Proof. unfold exec. rewrite gl3_set_view_run. reflexivity. Qed.

(** X14.  A [gl3_init] that succeeds installs the projection for its window:
    the viewport is [(0, 0, width, height)], the matrix has its scale terms
    set from [width] and [height], both new programs have been given that
    matrix, and a [gl3_set_view] with the same size right afterwards changes
    neither the globals nor the context. *)
Theorem gl3_init_installs_projection
  (drv : Driver) (s : gl_state) (width height : Z) :
  result (gl3_init drv width height) s = GL_TRUE ->
  let s' := exec (gl3_init drv width height) s in
  let flat := first_program drv s in
  let textured := second_program drv s in
  viewport (context s') = (0, 0, width, height) /\
  orthoMatrix s' !!! 0%fin = Float32.div Float32.two (Float32.of_int width) /\
  orthoMatrix s' !!! 5%fin =
    Float32.div (Float32.neg Float32.two) (Float32.of_int height) /\
  uniform_uploads (context s') !! (flat, mvp_location drv flat) =
    Some (orthoMatrix s') /\
  uniform_uploads (context s') !! (textured, mvp_location drv textured) =
    Some (orthoMatrix s') /\
  globals (exec (gl3_set_view drv width height width height) s') = globals s' /\
  context (exec (gl3_set_view drv width height width height) s') = context s'.
Proof.
  intros Hok. cbv zeta. rewrite !gl3_set_view_exec.
  rewrite gl3_init_result in Hok. rewrite gl3_init_exec.
  unfold after, orthoMatrix, set_view_calls.
  cbn [snd context globals].
  init_cases drv s; try discriminate;
    cbn [S2D_GL_orthoMatrix shaderProgram texShaderProgram];
    rewrite ?scaled_scaled;
    (repeat apply conj;
     [ ctx_simpl; reflexivity
      | apply scaled_0
      | apply scaled_5
      | ctx_simpl; rewrite lookup_insert; case_decide;
        [reflexivity | apply lookup_insert_eq]
      | ctx_simpl; apply lookup_insert_eq
      | reflexivity
      | apply context_ext; ctx_simpl;
        [ reflexivity ..
         | apply map_eq; intros k; rewrite !lookup_insert;
           repeat case_decide; reflexivity
         | reflexivity | reflexivity | reflexivity | reflexivity ] ]).
Qed.

Lemma gl3_init_installs_projection_witness :
  result (gl3_init good_driver 640 480) fresh_state = GL_TRUE /\
  viewport (context (exec (gl3_init good_driver 640 480) fresh_state)) =
    (0, 0, 640, 480).
Proof.
  split; [reflexivity|].
  exact (proj1 (gl3_init_installs_projection good_driver fresh_state 640 480 eq_refl)).
Defined.

(** ** Drawing *)

Lemma gl3_draw_texture_exec (s : gl_state) (x y w h : Z) (r g b a : GLfloat)
  (texture_id : GLuint) :
  exec (gl3_draw_texture x y w h r g b a texture_id) s =
  after (globals s)
    (draw_texture_calls (globals s) (texture_vertices x y w h r g b a) texture_id) s.
Proof. unfold exec. rewrite gl3_draw_texture_run. reflexivity. Qed.

Lemma gl3_draw_triangle_exec (s : gl_state)
  (x1 y1 c1r c1g c1b c1a x2 y2 c2r c2g c2b c2a x3 y3 c3r c3g c3b c3a : GLfloat) :
  exec (gl3_draw_triangle x1 y1 c1r c1g c1b c1a x2 y2 c2r c2g c2b c2a
          x3 y3 c3r c3g c3b c3a) s =
  after (globals s)
    [ Call_glUseProgram (shaderProgram (globals s));
      Call_glBufferData GL_ARRAY_BUFFER 96
        (FloatData (triangle_vertices x1 y1 c1r c1g c1b c1a
                      x2 y2 c2r c2g c2b c2a x3 y3 c3r c3g c3b c3a))
        GL_STATIC_DRAW;
      Call_glDrawArrays GL_TRIANGLES 0 3 ] s.
Proof. unfold exec. rewrite gl3_draw_triangle_run. reflexivity. Qed.

(** X15.  Drawing does not disturb the projection: [gl3_draw_triangle],
    [gl3_draw_image] and [gl3_draw_text] leave the viewport, the uniforms
    uploaded so far and all globals as they were.  A triangle draw moreover
    keeps the bound texture and touches the contents of no buffer but the
    one bound as array buffer. *)
Theorem draws_keep_projection (s : gl_state) (img : Image) (txt : Text)
  (x1 y1 c1r c1g c1b c1a x2 y2 c2r c2g c2b c2a x3 y3 c3r c3g c3b c3a : GLfloat) :
  let tri :=
    exec (gl3_draw_triangle x1 y1 c1r c1g c1b c1a x2 y2 c2r c2g c2b c2a
            x3 y3 c3r c3g c3b c3a) s in
  let im := exec (gl3_draw_image img) s in
  let tx := exec (gl3_draw_text txt) s in
  (globals tri = globals s /\ globals im = globals s /\ globals tx = globals s) /\
  (viewport (context tri) = viewport (context s) /\
   viewport (context im) = viewport (context s) /\
   viewport (context tx) = viewport (context s)) /\
  (uniform_uploads (context tri) = uniform_uploads (context s) /\
   uniform_uploads (context im) = uniform_uploads (context s) /\
   uniform_uploads (context tx) = uniform_uploads (context s)) /\
  texture_binding_2d (context tri) = texture_binding_2d (context s) /\
  (forall buffer : GLuint,
     buffer <> array_buffer_binding (context s) ->
     buffer_store (context tri) !! buffer = buffer_store (context s) !! buffer).
Proof.
  cbv zeta. unfold gl3_draw_image, gl3_draw_text.
  rewrite !gl3_draw_texture_exec, !gl3_draw_triangle_exec.
  unfold after, draw_texture_calls. cbn [globals context]. ctx_simpl.
  repeat apply conj; try reflexivity.
  intros buffer Hb. apply lookup_insert_ne. congruence.
Qed.

Lemma draws_keep_projection_witness :
  7 <> array_buffer_binding (context fresh_state) /\
  buffer_store
    (context (exec (gl3_draw_triangle Float32.zero Float32.zero
                      Float32.one Float32.one Float32.one Float32.one
                      Float32.one Float32.zero
                      Float32.one Float32.one Float32.one Float32.one
                      Float32.zero Float32.one
                      Float32.one Float32.one Float32.one Float32.one)
                fresh_state)) !! 7 =
  buffer_store (context fresh_state) !! 7.
Proof.
  split; [vm_compute; discriminate|].
  refine (proj2 (proj2 (proj2 (proj2
    (draws_keep_projection fresh_state
       (Build_Image 0 0 0 0 0)
       (Build_Text 0 0 0 0
          (Build_Color Float32.one Float32.one Float32.one Float32.one) 0)
       _ _ _ _ _ _ _ _ _ _ _ _ _ _ _ _ _ _)))) 7 _).
  vm_compute. discriminate.
Defined.

Lemma draws_fill_buffers (s : gl_state) (img : Image)
  (x1 y1 c1r c1g c1b c1a x2 y2 c2r c2g c2b c2a x3 y3 c3r c3g c3b c3a : GLfloat) :
  array_buffer_binding (context s) <> element_array_buffer_binding (context s) ->
  let s2 := exec (gl3_draw_image img) s in
  let s3 :=
    exec (gl3_draw_triangle x1 y1 c1r c1g c1b c1a x2 y2 c2r c2g c2b c2a
            x3 y3 c3r c3g c3b c3a) s2 in
  buffer_store (context s2) !! array_buffer_binding (context s) =
    Some (FloatData (texture_vertices (img_x img) (img_y img) (img_w img) (img_h img)
                       Float32.one Float32.one Float32.one Float32.one),
          GL_STATIC_DRAW) /\
  buffer_store (context s2) !! element_array_buffer_binding (context s) =
    Some (UIntData elements, GL_STATIC_DRAW) /\
  buffer_store (context s3) !! array_buffer_binding (context s) =
    Some (FloatData (triangle_vertices x1 y1 c1r c1g c1b c1a
                       x2 y2 c2r c2g c2b c2a x3 y3 c3r c3g c3b c3a),
          GL_STATIC_DRAW) /\
  buffer_store (context s3) !! element_array_buffer_binding (context s) =
    Some (UIntData elements, GL_STATIC_DRAW).
Proof.
  intros Hne. cbv zeta. unfold gl3_draw_image.
  rewrite gl3_draw_triangle_exec, !gl3_draw_texture_exec.
  unfold after, draw_texture_calls. cbn [globals context]. ctx_simpl.
  repeat apply conj.
  - rewrite lookup_insert_ne by congruence. apply lookup_insert_eq.
  - apply lookup_insert_eq.
  - apply lookup_insert_eq.
  - rewrite lookup_insert_ne by congruence. apply lookup_insert_eq.
Qed.

(** X16.  After [gl3_init], on a driver that hands out two distinct buffer
    names, a [gl3_draw_image] leaves its four vertices in the vertex buffer
    and the index array in the element buffer; a following
    [gl3_draw_triangle] replaces the vertices and leaves the indices in
    place. *)
Theorem draws_after_init_fill_buffers
  (drv : Driver) (s : gl_state) (width height : Z) (img : Image)
  (x1 y1 c1r c1g c1b c1a x2 y2 c2r c2g c2b c2a x3 y3 c3r c3g c3b c3a : GLfloat) :
  init_vbo drv s <> init_ebo drv s ->
  let s1 := exec (gl3_init drv width height) s in
  let s2 := exec (gl3_draw_image img) s1 in
  let s3 :=
    exec (gl3_draw_triangle x1 y1 c1r c1g c1b c1a x2 y2 c2r c2g c2b c2a
            x3 y3 c3r c3g c3b c3a) s2 in
  buffer_store (context s2) !! init_vbo drv s =
    Some (FloatData (texture_vertices (img_x img) (img_y img) (img_w img) (img_h img)
                       Float32.one Float32.one Float32.one Float32.one),
          GL_STATIC_DRAW) /\
  buffer_store (context s2) !! init_ebo drv s =
    Some (UIntData elements, GL_STATIC_DRAW) /\
  buffer_store (context s3) !! init_vbo drv s =
    Some (FloatData (triangle_vertices x1 y1 c1r c1g c1b c1a
                       x2 y2 c2r c2g c2b c2a x3 y3 c3r c3g c3b c3a),
          GL_STATIC_DRAW) /\
  buffer_store (context s3) !! init_ebo drv s =
    Some (UIntData elements, GL_STATIC_DRAW).
Proof.
  intros Hne.
  destruct (gl3_init_bindings drv s width height) as (_ & Hvbo & Hebo & _).
  cbv zeta in Hvbo, Hebo. cbv zeta.
  rewrite <- Hvbo, <- Hebo in Hne. rewrite <- Hvbo, <- Hebo.
  apply draws_fill_buffers. exact Hne.
Qed.

Lemma draws_after_init_fill_buffers_witness :
  init_vbo good_driver fresh_state <> init_ebo good_driver fresh_state /\
  buffer_store
    (context (exec (gl3_draw_image (Build_Image 10 20 30 40 5))
                (exec (gl3_init good_driver 640 480) fresh_state))) !! 2 =
  Some (UIntData elements, GL_STATIC_DRAW).
Proof.
  split; [vm_compute; discriminate|].
  refine (proj1 (proj2
    (draws_after_init_fill_buffers good_driver fresh_state 640 480
       (Build_Image 10 20 30 40 5)
       Float32.zero Float32.zero Float32.zero Float32.zero Float32.zero Float32.zero
       Float32.zero Float32.zero Float32.zero Float32.zero Float32.zero Float32.zero
       Float32.zero Float32.zero Float32.zero Float32.zero Float32.zero Float32.zero
       _))).
  vm_compute. discriminate.
Defined.

(** X17.  For every input, the textured-quad draw uploads exactly 4 whole
    vertices (32 floats, 128 bytes) and exactly 6 indices (24 bytes); the
    byte sizes are 4 times the number of values, every index is one of 0 to
    3 and so refers to an uploaded vertex, and the 6 indices drawn are the 6
    uploaded. *)
Theorem gl3_draw_texture_indices_in_bounds
  (s : gl_state) (x y w h : Z) (r g b a : GLfloat) (texture_id : GLuint) :
  let vertices := texture_vertices x y w h r g b a in
  issued (gl3_draw_texture x y w h r g b a texture_id) s =
    [ Call_glUseProgram (texShaderProgram (globals s));
      Call_glBindTexture GL_TEXTURE_2D texture_id;
      Call_glBufferData GL_ARRAY_BUFFER 128 (FloatData vertices) GL_STATIC_DRAW;
      Call_glBufferData GL_ELEMENT_ARRAY_BUFFER 24 (UIntData elements)
        GL_STATIC_DRAW;
      Call_glDrawElements GL_TRIANGLES 6 GL_UNSIGNED_INT 0 ] /\
  length (parse_vertices vertices) = 4%nat /\
  length vertices = 32%nat /\
  length elements = 6%nat /\
  128 = sizeof_GLfloat * Z.of_nat (length vertices) /\
  24 = sizeof_GLuint * Z.of_nat (length elements) /\
  length vertices = (8 * length (parse_vertices vertices))%nat /\
  Forall (fun i => 0 <= i < 4) elements /\
  Forall (fun i => 0 <= i < Z.of_nat (length (parse_vertices vertices))) elements.
Proof.
  cbv zeta.
  rewrite (issued_after _ _ tt _ _ (gl3_draw_texture_run s x y w h r g b a texture_id)).
  repeat apply conj; try reflexivity.
  - unfold elements. repeat (apply Forall_cons; split; [lia|]). apply Forall_nil_2.
  - unfold elements. cbn [texture_vertices parse_vertices length].
    repeat (apply Forall_cons; split; [lia|]). apply Forall_nil_2.
Qed.

(** ** Whole pixel coordinates *)

Lemma digits2_pos_bounds (p : positive) :
  2 ^ (Zpos (digits2_pos p) - 1) <= Zpos p < 2 ^ Zpos (digits2_pos p).
Proof.
  induction p as [p IH|p IH|]; cbn [digits2_pos].
  - rewrite Pos2Z.inj_succ.
    replace (Z.succ (Z.pos (digits2_pos p)) - 1) with (Z.succ (Z.pos (digits2_pos p) - 1)) by lia.
    rewrite !Z.pow_succ_r by lia. lia.
  - rewrite Pos2Z.inj_succ.
    replace (Z.succ (Z.pos (digits2_pos p)) - 1) with (Z.succ (Z.pos (digits2_pos p) - 1)) by lia.
    rewrite !Z.pow_succ_r by lia. lia.
  - cbn. lia.
Qed.

Lemma iter_xO_value (p k : positive) : Zpos (Pos.iter xO p k) = Zpos p * 2 ^ Zpos k.
Proof.
  induction k as [|k IH] using Pos.peano_ind.
  - cbn. lia.
  - rewrite Pos.iter_succ, Pos2Z.inj_xO, IH, Pos2Z.inj_succ, Z.pow_succ_r by lia. lia.
Qed.

Lemma iter_xO_digits (p k : positive) :
  Zpos (digits2_pos (Pos.iter xO p k)) = Zpos (digits2_pos p) + Zpos k.
Proof.
  induction k as [|k IH] using Pos.peano_ind.
  - cbn [Pos.iter digits2_pos]. lia.
  - rewrite Pos.iter_succ. cbn [digits2_pos]. rewrite Pos2Z.inj_succ, IH. lia.
Qed.

Lemma digits_le_24 (p : positive) : Zpos p < 2 ^ 24 -> Zpos (digits2_pos p) <= 24.
Proof.
  intros Hp. pose proof (digits2_pos_bounds p) as [Hlo _].
  destruct (Z_le_gt_dec (Zpos (digits2_pos p)) 24) as [|Hgt]; [assumption|].
  assert (2 ^ 24 <= 2 ^ (Zpos (digits2_pos p) - 1)) by (apply Z.pow_le_mono_r; lia).
  lia.
Qed.

(** A 24-digit mantissa with an exponent in range is already rounded. *)
Lemma binary_round_aux_exact (sx : bool) (m : positive) (e : Z) :
  Zpos (digits2_pos m) = 24 -> -149 <= e <= 104 ->
  binary_round_aux 24 128 sx (Zpos m) e loc_Exact = S754_finite sx m e.
Proof.
  intros Hd He. unfold binary_round_aux, shr_fexp, fexp, emin.
  cbn [Zdigits2 shr_record_of_loc]. rewrite Hd.
  replace (Z.max (24 + e - 24) (3 - 128 - 24) - e) with 0 by lia.
  cbn [shr shr_m loc_of_shr_record round_nearest_even Zdigits2 shr_record_of_loc].
  rewrite Hd.
  replace (Z.max (24 + e - 24) (3 - 128 - 24) - e) with 0 by lia.
  cbn [shr shr_m].
  destruct (e <=? 128 - 24) eqn:E; [reflexivity|]. apply Z.leb_gt in E. lia.
Qed.

Lemma binary_round_small (sx : bool) (p : positive) :
  Zpos p < 2 ^ 24 ->
  exists (m : positive) (k : Z),
    binary_round 24 128 sx p 0 = S754_finite sx m (- k) /\
    0 <= k <= 23 /\ Zpos m = Zpos p * 2 ^ k.
Proof.
  intros Hp. pose proof (digits_le_24 p Hp) as Hd.
  assert (1 <= Zpos (digits2_pos p)) as Hd1 by lia.
  unfold binary_round, fexp, emin.
  replace (Z.max (Z.pos (digits2_pos p) + 0 - 24) (3 - 128 - 24))
    with (Zpos (digits2_pos p) - 24) by lia.
  unfold shl_align.
  destruct (Zpos (digits2_pos p) - 24 - 0) as [|q|q] eqn:Eq; try lia.
  - exists p, 0. rewrite binary_round_aux_exact by lia.
    repeat split; try lia.
  - exists (Pos.iter xO p q), (Zpos q).
    rewrite binary_round_aux_exact.
    + replace (Zpos (digits2_pos p) - 24) with (- Zpos q) by lia.
      repeat split; try lia. apply iter_xO_value.
    + rewrite iter_xO_digits. lia.
    + lia.
Qed.

Lemma GLfloat_to_Z_finite (sx : bool) (m : positive) (k n : Z) :
  0 <= k -> Zpos m = n * 2 ^ k ->
  GLfloat_to_Z (S754_finite sx m (- k)) = Some (if sx then - n else n).
Proof.
  intros Hk Hm. unfold GLfloat_to_Z.
  assert (0 < 2 ^ k) as Hpow by (apply Z.pow_pos_nonneg; lia).
  destruct (Z.eq_dec k 0) as [->|Hk0].
  - cbn [Z.opp Z.leb Z.compare]. rewrite Z.pow_0_r in *.
    destruct sx; f_equal; lia.
  - replace (0 <=? - k) with false by (symmetry; apply Z.leb_gt; lia).
    rewrite Z.opp_involutive, Hm, Z_mod_mult. cbn [Z.eqb].
    destruct sx; f_equal.
    + change (Z.neg m) with (- Z.pos m). rewrite Hm.
      rewrite <- Z.mul_opp_l. apply Z_div_mult. lia.
    + apply Z_div_mult. lia.
Qed.

Lemma of_int_exact (n : Z) :
  - 2 ^ 24 < n < 2 ^ 24 -> GLfloat_to_Z (Float32.of_int n) = Some n.
Proof.
  intros Hn. unfold Float32.of_int, Float32.prec, Float32.emax. destruct n as [|p|p]; cbn [binary_normalize].
  - reflexivity.
  - destruct (binary_round_small false p) as (m & k & -> & Hk & Hm); [lia|].
    apply (GLfloat_to_Z_finite false m k (Zpos p)); lia.
  - destruct (binary_round_small true p) as (m & k & -> & Hk & Hm); [lia|].
    apply (GLfloat_to_Z_finite true m k (Zpos p)); lia.
Qed.

(** Above 2^24 the conversion rounds: 2^24 + 1 becomes 2^24. *)
Example of_int_rounds_above_2_24 :
  GLfloat_to_Z (Float32.of_int 16777217) = Some 16777216.
Proof. reflexivity. Qed.

(** X18.  When the corners of the quad lie within 2^24 pixels of the origin,
    the four positions [gl3_draw_texture] uploads are exactly the integer
    corners [(x, y)], [(x + w, y)], [(x + w, y + h)], [(x, y + h)]: nothing
    is lost in the conversion to [GLfloat]. *)
Theorem gl3_draw_texture_exact_corners
  (x y w h : Z) (r g b a : GLfloat) :
  - 2 ^ 24 < x < 2 ^ 24 -> - 2 ^ 24 < y < 2 ^ 24 ->
  - 2 ^ 24 < x + w < 2 ^ 24 -> - 2 ^ 24 < y + h < 2 ^ 24 ->
  map pixel_position (parse_vertices (texture_vertices x y w h r g b a)) =
    [ (Some x, Some y); (Some (x + w), Some y);
      (Some (x + w), Some (y + h)); (Some x, Some (y + h)) ].
Proof.
  intros Hx Hy Hxw Hyh.
  cbn [texture_vertices parse_vertices map pixel_position position fst snd].
  unfold Int32.int_add.
  rewrite (to_GLint_small (x + w)), (to_GLint_small (y + h))
    by (unfold Int32.in_GLint, Int32.half_modulus; lia).
  unfold pixel_position. cbn [position fst snd].
  rewrite !of_int_exact by assumption. reflexivity.
Qed.

Lemma gl3_draw_texture_exact_corners_witness :
  map pixel_position
    (parse_vertices (texture_vertices 10 20 30 40
                       Float32.one Float32.one Float32.one Float32.one)) =
  [ (Some 10, Some 20); (Some (10 + 30), Some 20);
    (Some (10 + 30), Some (20 + 40)); (Some 10, Some (20 + 40)) ].
Proof.
  apply (gl3_draw_texture_exact_corners 10 20 30 40); split; reflexivity.
Defined.

(** ** Locations and sizes that [gl3_init] does not check *)

(** X19.  [gl3_init] does not check the attribute locations it is given: if
    the driver reports -1 (not found) for [position] in the flat program,
    [gl3_init] still issues [glVertexAttribPointer] and
    [glEnableVertexAttribArray], with the index 4294967295 that -1 becomes as
    a [GLuint]. *)
Theorem gl3_init_uses_unchecked_attrib_location
  (drv : Driver) (s : gl_state) (width height : Z) :
  first_program drv s <> 0 ->
  Int32.to_GLint (drv_attrib_location drv (first_program drv s) "position") = -1 ->
  Call_glVertexAttribPointer 4294967295 2 GL_FLOAT GL_FALSE 32 0
    ∈ issued (gl3_init drv width height) s /\
  Call_glEnableVertexAttribArray 4294967295 ∈ issued (gl3_init drv width height) s.
Proof.
  intros Hp Hloc. rewrite gl3_init_issued.
  apply Z.eqb_neq in Hp. unfold init_calls. rewrite Hp.
  assert (Call_glVertexAttribPointer 4294967295 2 GL_FLOAT GL_FALSE 32 0
            ∈ flat_program_calls drv s /\
          Call_glEnableVertexAttribArray 4294967295 ∈ flat_program_calls drv s)
    as [Hptr Hen].
  { unfold flat_program_calls, attrib_calls. rewrite Hloc.
    change (Int32.to_GLuint (-1)) with 4294967295.
    split; set_solver. }
  destruct (second_program drv s =? 0); split;
    apply elem_of_app; right; apply elem_of_app; left; assumption.
Qed.

Lemma gl3_init_uses_unchecked_attrib_location_witness :
  first_program failing_linker_driver fresh_state <> 0 /\
  Call_glEnableVertexAttribArray 4294967295
    ∈ issued (gl3_init failing_linker_driver 640 480) fresh_state.
Proof.
  split; [vm_compute; discriminate|].
  refine (proj2 (gl3_init_uses_unchecked_attrib_location failing_linker_driver
                   fresh_state 640 480 _ eq_refl)).
  vm_compute. discriminate.
Defined.

(** X20.  The window size has no part in whether [gl3_init] succeeds or in
    the handles it stores: two runs from the same state with different sizes
    give the same result and the same program handles.  In particular a
    window of 0 by 0 passes, leaving infinite scale terms in the matrix. *)
Theorem gl3_init_ignores_window_size
  (drv : Driver) (s : gl_state) (width height width' height' : Z) :
  let s1 := exec (gl3_init drv width height) s in
  let s2 := exec (gl3_init drv width' height') s in
  result (gl3_init drv width height) s = result (gl3_init drv width' height') s /\
  shaderProgram (globals s1) = shaderProgram (globals s2) /\
  texShaderProgram (globals s1) = texShaderProgram (globals s2) /\
  orthoMatrix (exec (gl3_init drv 0 0) s) =
    (if result (gl3_init drv width height) s =? GL_TRUE
     then vinsert 5%fin (S754_infinity true)
            (vinsert 0%fin (S754_infinity false) (orthoMatrix s))
     else orthoMatrix s).
Proof.
  cbv zeta. rewrite !gl3_init_result, gl3_init_matrix, !gl3_init_exec.
  unfold after, init_globals. cbn [globals].
  destruct (first_program drv s =? 0); [repeat apply conj; reflexivity|].
  destruct (second_program drv s =? 0); repeat apply conj; reflexivity.
Qed.
